(** * Shopify integration backend: a shallow embedding of [main.py]

    The handlers of [main.py] and the two schemas of [schemas.py] are
    rendered as Rocq definitions: Python strings are lists of code points,
    JSON and Python values are one inductive type, and the handlers run
    in a state-and-exception monad over the world they act on (the
    database handle, the HTTP upstream, a clock counting upstream calls). *)

From Stdlib Require Import List String Ascii ZArith NArith QArith Lia Bool.
From Stdlib Require Import DecimalString.
Import ListNotations.

Set Implicit Arguments.
Set Warnings "-register-all".
Local Close Scope Q_scope.
Local Open Scope list_scope.

(** ** Python [str]: a sequence of Unicode code points *)

Definition char := N.
Definition str := list char.

(** A source literal, character by character (ASCII literals only). *)
Fixpoint lit (s : string) : str :=
  match s with
  | EmptyString => []
  | String a rest => N_of_ascii a :: lit rest
  end.

Fixpoint str_eqb (a b : str) : bool :=
  match a, b with
  | [], [] => true
  | x :: a', y :: b' => N.eqb x y && str_eqb a' b'
  | _, _ => false
  end.

(** [str.isspace] for one code point: the characters [str.strip()] removes. *)
Definition is_space (c : char) : bool :=
  ((9 <=? c) && (c <=? 13) || (28 <=? c) && (c <=? 32)
   || (c =? 133) || (c =? 160) || (c =? 5760)
   || (8192 <=? c) && (c <=? 8202)
   || (c =? 8232) || (c =? 8233) || (c =? 8239) || (c =? 8287)
   || (c =? 12288))%N.

Fixpoint lstrip (s : str) : str :=
  match s with
  | [] => []
  | c :: rest => if is_space c then lstrip rest else s
  end.

Definition rstrip (s : str) : str := rev (lstrip (rev s)).

(** [s.strip()] *)
Definition strip (s : str) : str := rstrip (lstrip s).

(** [s.startswith(p)] *)
Fixpoint startswith (s p : str) {struct p} : bool :=
  match p, s with
  | [], _ => true
  | x :: p', y :: s' => N.eqb x y && startswith s' p'
  | _ :: _, [] => false
  end.

(** [s.endswith(p)] *)
Definition endswith (s p : str) : bool := startswith (rev s) (rev p).

(** [s.replace(old, new)]: a left-to-right scan replacing the
    non-overlapping occurrences of [old].  [skip] counts the characters of
    a matched occurrence that are still to be passed over. *)
Fixpoint replace_from (old new : str) (skip : nat) (s : str) : str :=
  match s with
  | [] => []
  | c :: rest =>
      match skip with
      | S k => replace_from old new k rest
      | O =>
          if startswith s old
          then new ++ replace_from old new (List.length old - 1) rest
          else c :: replace_from old new O rest
      end
  end.

Definition replace (s old new : str) : str :=
  match old with
  | [] => new ++ flat_map (fun c => c :: new) s
  | _ :: _ => replace_from old new O s
  end.

(** [s.split(sep)] for a one-character separator. *)
Fixpoint split (s : str) (sep : char) : list str :=
  match s with
  | [] => [[]]
  | c :: rest =>
      if N.eqb c sep then [] :: split rest sep
      else match split rest sep with
           | seg :: segs => (c :: seg) :: segs
           | [] => [[c]]
           end
  end.

Definition slash : char := 47%N.
Definition myshopify_suffix : str := lit ".myshopify.com".

(** [main.py], lines 62-65. *)
Definition normalize_domain (domain : str) : str :=
  let d := replace (replace (strip domain) (lit "http://") []) (lit "https://") [] in
  let d := hd [] (split d slash) in
  if endswith d myshopify_suffix then d else d ++ myshopify_suffix.

(** ** Python and JSON values *)

Inductive pyval : Type :=
| VNone
| VBool (b : bool)
| VInt (n : Z)
| VFloat (q : Q)
| VStr (s : str)
| VList (items : list pyval)
| VDict (entries : list (str * pyval)).

Definition dict := list (str * pyval).

(** [d.get(k)]: the entry of [k], if any. *)
Fixpoint dict_get (d : dict) (k : str) : option pyval :=
  match d with
  | [] => None
  | (k', v) :: rest => if str_eqb k' k then Some v else dict_get rest k
  end.

(** [d[k] = v]: overwrite in place, or append a new entry. *)
Fixpoint dict_set (d : dict) (k : str) (v : pyval) : dict :=
  match d with
  | [] => [(k, v)]
  | (k', v') :: rest =>
      if str_eqb k' k then (k', v) :: rest else (k', v') :: dict_set rest k v
  end.

Definition dict_update (d updates : dict) : dict :=
  fold_left (fun acc kv => dict_set acc (fst kv) (snd kv)) updates d.

Definition is_nil {A : Type} (l : list A) : bool :=
  match l with [] => true | _ :: _ => false end.

(** Truth value testing, as [if v:] does it. *)
Definition truthy (v : pyval) : bool :=
  match v with
  | VNone => false
  | VBool b => b
  | VInt n => negb (n =? 0)%Z
  | VFloat q => negb (Qeq_bool q 0)
  | VStr s => negb (is_nil s)
  | VList items => negb (is_nil items)
  | VDict entries => negb (is_nil entries)
  end.

(** Truth value of an [Optional[str]] such as the error half of a fetch. *)
Definition truthy_opt (e : option str) : bool :=
  match e with
  | None => false
  | Some s => negb (is_nil s)
  end.

Definition type_name (v : pyval) : str :=
  match v with
  | VNone => lit "NoneType"
  | VBool _ => lit "bool"
  | VInt _ => lit "int"
  | VFloat _ => lit "float"
  | VStr _ => lit "str"
  | VList _ => lit "list"
  | VDict _ => lit "dict"
  end.

(** Equality of stored values, as a query filter compares them. *)
Fixpoint pyval_eqb (a b : pyval) {struct a} : bool :=
  match a, b with
  | VNone, VNone => true
  | VBool x, VBool y => Bool.eqb x y
  | VInt x, VInt y => Z.eqb x y
  | VFloat x, VFloat y => Qeq_bool x y
  | VInt x, VFloat y => Qeq_bool (inject_Z x) y
  | VFloat x, VInt y => Qeq_bool x (inject_Z y)
  | VStr x, VStr y => str_eqb x y
  | VList xs, VList ys =>
      (fix all2 (l1 l2 : list pyval) {struct l1} : bool :=
         match l1, l2 with
         | [], [] => true
         | h1 :: t1, h2 :: t2 => pyval_eqb h1 h2 && all2 t1 t2
         | _, _ => false
         end) xs ys
  | VDict xs, VDict ys =>
      (fix all2 (l1 l2 : list (str * pyval)) {struct l1} : bool :=
         match l1, l2 with
         | [], [] => true
         | (k1, v1) :: t1, (k2, v2) :: t2 =>
             str_eqb k1 k2 && pyval_eqb v1 v2 && all2 t1 t2
         | _, _ => false
         end) xs ys
  | _, _ => false
  end.

(** [str(n)] for an int. *)
Definition decimal (n : Z) : str := lit (NilZero.string_of_int (Z.to_int n)).

(** ** Exceptions *)

Inductive exn : Type :=
| HTTPException (status_code : Z) (detail : str)
| AttributeError (msg : str)
| TypeError (msg : str)
| RequestException (msg : str)
| JSONDecodeError (msg : str)
| PyMongoError (msg : str)
| NotImplementedError (msg : str)
| OverflowError (msg : str).

(** [str(e)] *)
Definition exn_str (e : exn) : str :=
  match e with
  | HTTPException status detail => decimal status ++ lit ": " ++ detail
  | AttributeError msg | TypeError msg | RequestException msg
  | JSONDecodeError msg | PyMongoError msg
  | NotImplementedError msg | OverflowError msg => msg
  end.

Inductive result (A : Type) : Type :=
| Ok (a : A)
| Raise (e : exn).
Arguments Ok {A} a.
Arguments Raise {A} e.

(** ** The world a handler runs in *)

(** One outbound [requests.get]. *)
Record Request : Type := mkRequest {
  req_url : str;
  req_headers : list (str * pyval);
  req_params : dict;
  req_timeout : Z
}.

(** What [r.json()] does on a response: a value, or a decode error. *)
Inductive json_outcome : Type :=
| Parsed (v : pyval)
| Malformed (msg : str).

Record Response : Type := mkResponse {
  status_code : Z;
  text : str;
  json : json_outcome
}.

(** What [requests.get] does: a response of any status, or an exception. *)
Inductive http_outcome : Type :=
| Responded (r : Response)
| TransportError (msg : str).

(** A stored document: its [_id] and its other fields. *)
Record document : Type := mkDocument {
  doc_id : N;
  doc_fields : dict
}.

Definition collection := list document.

(** A database: its collections by name (an unused name has no documents). *)
Definition Store := str -> collection.

Definition set_collection (st : Store) (name : str) (c : collection) : Store :=
  fun n => if str_eqb n name then c else st n.

(** The driver calls inside the cache write of [shopify_summary]. *)
Inductive snap_op : Type := SnapFind | SnapUpdate | SnapCreate.

(** The driver calls of the two handlers outside the cache write: the lookup
    of line 84, the update of line 87, the insertion of line 90, the update
    of line 97 and the lookup of line 105. *)
Inductive driver_op : Type :=
| ConnectFind | ConnectUpdate | ConnectInsert | ConnectName | SummaryFind.

(** How such a call fails: the server does not answer, or the driver cannot
    encode a value it is given (an integer beyond 64 bits, say). *)
Inductive driver_error : Type :=
| ServerError (msg : str)
| EncodingError (msg : str).

Record World : Type := mkWorld {
  db : option Store;                      (* the global [db]; [None] when not configured *)
  net : nat -> Request -> http_outcome;   (* the upstream's answer to the n-th call *)
  clock : nat;                            (* upstream calls made so far *)
  snapshot_fault : snap_op -> option str; (* driver calls of the cache write that fail *)
  spare_id : str;                         (* identifier handed out without a database *)
  truth_fault : option str;               (* what [bool(db)] raises on a database handle:
                                             a PyMongo 4 [Database] refuses the test *)
  driver_fault : driver_op -> option driver_error
                                          (* driver calls of the handlers that fail *)
}.

Definition set_db (w : World) (st : Store) : World :=
  mkWorld (Some st) (net w) (clock w) (snapshot_fault w) (spare_id w)
    (truth_fault w) (driver_fault w).

Definition tick (w : World) : World :=
  mkWorld (db w) (net w) (S (clock w)) (snapshot_fault w) (spare_id w)
    (truth_fault w) (driver_fault w).

Definition set_snapshot_fault (w : World) (f : snap_op -> option str) : World :=
  mkWorld (db w) (net w) (clock w) f (spare_id w) (truth_fault w) (driver_fault w).

Definition set_driver_fault (w : World) (f : driver_op -> option driver_error) : World :=
  mkWorld (db w) (net w) (clock w) (snapshot_fault w) (spare_id w) (truth_fault w) f.

(** ** The monad of handlers: state passing with Python exceptions *)

Definition M (A : Type) : Type := World -> result A * World.

Definition ret {A : Type} (a : A) : M A := fun w => (Ok a, w).

Definition bind {A B : Type} (m : M A) (k : A -> M B) : M B :=
  fun w =>
    match m w with
    | (Ok a, w') => k a w'
    | (Raise e, w') => (Raise e, w')
    end.

Definition raise {A : Type} (e : exn) : M A := fun w => (Raise e, w).

(** [try: body  except Exception as e: handler(e)] *)
Definition try_except {A : Type} (body : M A) (handler : exn -> M A) : M A :=
  fun w =>
    match body w with
    | (Ok a, w') => (Ok a, w')
    | (Raise e, w') => handler e w'
    end.

Declare Scope py_scope.
Delimit Scope py_scope with py.
Notation "x <- m ;; k" := (bind m (fun x => k))
  (at level 61, m at next level, right associativity) : py_scope.
Notation "' pat <- m ;; k" := (bind m (fun x => match x with pat => k end))
  (at level 61, pat pattern, m at next level, right associativity) : py_scope.
Notation "m ;; k" := (bind m (fun _ => k))
  (at level 61, right associativity) : py_scope.
Local Open Scope py_scope.

(** The response of a run, and the world it leaves. *)
Definition response {A : Type} (m : M A) (w : World) : result A := fst (m w).
Definition after {A : Type} (m : M A) (w : World) : World := snd (m w).

(** *** Operations of Python values that may raise *)

(** [v.get(key, default)] *)
Definition py_get (v : pyval) (key : str) (default : pyval) : result pyval :=
  match v with
  | VDict entries =>
      Ok (match dict_get entries key with Some x => x | None => default end)
  | _ => Raise (AttributeError
                  (lit "'" ++ type_name v ++ lit "' object has no attribute 'get'"))
  end.

(** [len(v)] *)
Definition py_len (v : pyval) : result Z :=
  match v with
  | VStr s => Ok (Z.of_nat (List.length s))
  | VList items => Ok (Z.of_nat (List.length items))
  | VDict entries => Ok (Z.of_nat (List.length entries))
  | _ => Raise (TypeError
                  (lit "object of type '" ++ type_name v ++ lit "' has no len()"))
  end.

(** An expression that touches no state, evaluated inside a handler. *)
Definition lift {A : Type} (r : result A) : M A := fun w => (r, w).

(** *** The HTTP client library *)

(** [requests.get(url, headers=..., params=..., timeout=...)] *)
Definition requests_get (url : str) (headers : list (str * pyval))
    (params : dict) (timeout : Z) : M Response :=
  fun w =>
    match net w (clock w) (mkRequest url headers params timeout) with
    | Responded r => (Ok r, tick w)
    | TransportError msg => (Raise (RequestException msg), tick w)
    end.

(** [r.json()] *)
Definition response_json (r : Response) : M pyval :=
  match json r with
  | Parsed v => ret v
  | Malformed msg => raise (JSONDecodeError msg)
  end.

(** [main.py], lines 68-77.  The pair is (body, error). *)
Definition shopify_get (domain : str) (token : pyval) (path : str)
    (params : option dict) : M (pyval * option str) :=
  let url := lit "https://" ++ domain ++ lit "/admin/api/2024-04/" ++ path in
  let headers := [(lit "X-Shopify-Access-Token", token);
                  (lit "Accept", VStr (lit "application/json"))] in
  try_except
    (r <- requests_get url headers
            (match params with
             | Some p => if is_nil p then [] else p
             | None => []
             end) 12 ;;
     if (status_code r =? 200)%Z
     then (body <- response_json r ;; ret (body, None))
     else ret (VNone,
               Some (lit "HTTP " ++ decimal (status_code r) ++ lit ": "
                       ++ firstn 200 (text r))))
    (fun e => ret (VNone, Some (exn_str e))).

(** The request [shopify_get] issues, and the pair it makes of the answer. *)
Definition fetch_request (domain : str) (token : pyval) (path : str)
    (params : option dict) : Request :=
  mkRequest (lit "https://" ++ domain ++ lit "/admin/api/2024-04/" ++ path)
    [(lit "X-Shopify-Access-Token", token);
     (lit "Accept", VStr (lit "application/json"))]
    (match params with
     | Some p => if is_nil p then [] else p
     | None => []
     end) 12.

Definition http_error (r : Response) : str :=
  lit "HTTP " ++ decimal (status_code r) ++ lit ": " ++ firstn 200 (text r).

Definition fetch_result (o : http_outcome) : pyval * option str :=
  match o with
  | Responded r =>
      if (status_code r =? 200)%Z
      then match json r with
           | Parsed v => (v, None)
           | Malformed msg => (VNone, Some msg)
           end
      else (VNone, Some (http_error r))
  | TransportError msg => (VNone, Some msg)
  end.

(** What the [k]-th upstream call counted from [w] returns to its caller. *)
Definition nth_fetch (w : World) (k : nat) (domain : str) (token : pyval)
    (path : str) (params : option dict) : pyval * option str :=
  fetch_result (net w (clock w + k) (fetch_request domain token path params)).

(** ** The database driver *)

(** The two shapes of query filter the handlers build:
    [{"_id": oid}] and [{key: value}]. *)
Inductive query : Type :=
| ById (oid : N)
| ByField (key : str) (value : pyval).

Definition matches (q : query) (d : document) : bool :=
  match q with
  | ById oid => N.eqb (doc_id d) oid
  | ByField key value =>
      match dict_get (doc_fields d) key with
      | Some v => pyval_eqb value v
      | None => pyval_eqb value VNone
      end
  end.

(** The effect of [update_one(q, {"$set": fields})] on a collection: the
    first matching document gets the fields, the others are untouched. *)
Fixpoint update_first (q : query) (fields : dict) (c : collection) : collection :=
  match c with
  | [] => []
  | d :: rest =>
      if matches q d
      then mkDocument (doc_id d) (dict_update (doc_fields d) fields) :: rest
      else d :: update_first q fields rest
  end.

Definition get_db : M (option Store) := fun w => (Ok (db w), w).

(** [bool(db)], the test of [if db]: false for [None]; on a database handle
    it is true, unless the handle refuses truth value testing and raises. *)
Definition db_bool : M bool :=
  fun w =>
    match db w with
    | None => (Ok false, w)
    | Some _ =>
        match truth_fault w with
        | Some msg => (Raise (NotImplementedError msg), w)
        | None => (Ok true, w)
        end
    end.

Definition driver_exn (e : driver_error) : exn :=
  match e with
  | ServerError msg => PyMongoError msg
  | EncodingError msg => OverflowError msg
  end.

(** Where a driver method is called from. *)
Inductive call_site : Type :=
| HandlerCall (op : driver_op)
| CacheCall (op : snap_op).

(** What the call at a site raises, if the world makes it fail. *)
Definition fault_at (w : World) (site : call_site) : option exn :=
  match site with
  | HandlerCall op => option_map driver_exn (driver_fault w op)
  | CacheCall op => option_map PyMongoError (snapshot_fault w op)
  end.

(** The driver carries the call out, or raises. *)
Definition driver_call (site : call_site) : M unit :=
  fun w =>
    match fault_at w site with
    | Some e => (Raise e, w)
    | None => (Ok tt, w)
    end.

(** [db[name]]: subscripting the global, which raises when it is [None]. *)
Definition db_getitem (name : str) : M collection :=
  fun w =>
    match db w with
    | Some st => (Ok (st name), w)
    | None => (Raise (TypeError (lit "'NoneType' object is not subscriptable")), w)
    end.

(** [list(db[name].find(q))], called at [site] *)
Definition find (site : call_site) (name : str) (q : query) : M (list document) :=
  c <- db_getitem name ;;
  driver_call site ;;
  ret (List.filter (matches q) c).

(** [db[name].find_one(q)], called at [site] *)
Definition find_one (site : call_site) (name : str) (q : query) : M (option document) :=
  c <- db_getitem name ;;
  driver_call site ;;
  ret (List.find (matches q) c).

(** [db[name].update_one(q, {"$set": fields})], called at [site] *)
Definition update_one (site : call_site) (name : str) (q : query) (fields : dict)
    : M unit :=
  c <- db_getitem name ;;
  driver_call site ;;
  fun w =>
    match db w with
    | Some st => (Ok tt, set_db w (set_collection st name (update_first q fields c)))
    | None => (Ok tt, w)
    end.

(** [str(oid)] for an ObjectId: its 24 hexadecimal digits. *)
Definition hex_digit (n : N) : char :=
  if (n <? 10)%N then (48 + n)%N else (87 + n)%N.

Fixpoint hex_digits (k : nat) (n : N) : str :=
  match k with
  | O => []
  | S k' => hex_digits k' (n / 16)%N ++ [hex_digit (n mod 16)%N]
  end.

Definition oid_str (oid : N) : str := hex_digits 24 oid.

(** An [_id] no document of the collection carries. *)
Definition fresh_oid (c : collection) : N :=
  N.succ (fold_right (fun d acc => N.max (doc_id d) acc) 0%N c).

(** Modelled from the spec: [create_document] of the [database] module,
    which is not among the sources.  With a database it inserts the document
    into the named collection under a new [_id] and returns that identifier,
    unless the driver fails at the insertion; without one it saves nothing
    and still returns some identifier. *)
Definition create_document (site : call_site) (name : str) (fields : dict) : M str :=
  fun w =>
    match db w with
    | Some st =>
        match fault_at w site with
        | Some e => (Raise e, w)
        | None =>
            let oid := fresh_oid (st name) in
            (Ok (oid_str oid),
             set_db w (set_collection st name (st name ++ [mkDocument oid fields])))
        end
    | None => (Ok (spare_id w), w)
    end.

(** ** [schemas.py] *)

Definition opt_str (o : option str) : pyval :=
  match o with Some s => VStr s | None => VNone end.

Module ShopifyIntegration.
Record t : Type := mk {
  domain : str;
  access_token : str;
  store_name : option str;
  scopes : option (list str)
}.

Definition model_dump (m : t) : dict :=
  [(lit "domain", VStr (domain m));
   (lit "access_token", VStr (access_token m));
   (lit "store_name", opt_str (store_name m));
   (lit "scopes", match scopes m with
                  | Some l => VList (map VStr l)
                  | None => VNone
                  end)].
End ShopifyIntegration.

Module DataSnapshot.
Record t : Type := mk {
  domain : str;
  data : dict
}.

Definition model_dump (m : t) : dict :=
  [(lit "domain", VStr (domain m)); (lit "data", VDict (data m))].
End DataSnapshot.

Module ConnectPayload.
Record t : Type := mk {
  domain : str;
  access_token : str
}.
End ConnectPayload.

Definition integrations : str := lit "shopifyintegration".
Definition snapshots : str := lit "datasnapshot".

(** ** The handlers *)

(** Line 95: [data.get("shop", {}).get("name") if data else None] *)
Definition shop_name_of (data : pyval) : result pyval :=
  if truthy data
  then match py_get data (lit "shop") (VDict []) with
       | Ok shop => py_get shop (lit "name") VNone
       | Raise e => Raise e
       end
  else Ok VNone.

(** Line 99: the response object. *)
Definition connect_response (inserted_id domain : str) (verified : bool)
    (shop_name : pyval) : pyval :=
  VDict [(lit "ok", VBool true);
         (lit "id", VStr inserted_id);
         (lit "domain", VStr domain);
         (lit "verified", VBool verified);
         (lit "store_name", shop_name)].

(** [main.py], lines 80-99. *)
Definition connect_shopify (payload : ConnectPayload.t) : M pyval :=
  let domain := normalize_domain (ConnectPayload.domain payload) in
  configured <- db_bool ;;
  existing <- (if configured
               then find (HandlerCall ConnectFind) integrations
                      (ByField (lit "domain") (VStr domain))
               else ret []) ;;
  let doc := ShopifyIntegration.mk domain (ConnectPayload.access_token payload)
               None None in
  inserted_id <- (match existing with
                  | e0 :: _ =>
                      update_one (HandlerCall ConnectUpdate) integrations
                        (ById (doc_id e0)) (ShopifyIntegration.model_dump doc) ;;
                      ret (oid_str (doc_id e0))
                  | [] =>
                      create_document (HandlerCall ConnectInsert) integrations
                        (ShopifyIntegration.model_dump doc)
                  end) ;;
  '(data, err) <- shopify_get domain (VStr (ConnectPayload.access_token payload))
                    (lit "shop.json") None ;;
  let verified := if truthy_opt err then false else true in
  shop_name <- lift (shop_name_of data) ;;
  (if truthy shop_name
   then update_one (HandlerCall ConnectName) integrations
          (ByField (lit "domain") (VStr domain)) [(lit "store_name", shop_name)]
   else ret tt) ;;
  ret (connect_response inserted_id domain verified shop_name).

(** The literals of lines 119-130. *)
Definition demo_product_items : list pyval :=
  [VDict [(lit "id", VInt 1);
          (lit "title", VStr (lit "Demo T" ++ [8209%N] ++ lit "Shirt"));
          (lit "vendor", VStr (lit "ShopSync")); (lit "status", VStr (lit "active"))];
   VDict [(lit "id", VInt 2); (lit "title", VStr (lit "Demo Hoodie"));
          (lit "vendor", VStr (lit "ShopSync")); (lit "status", VStr (lit "draft"))]].

Definition demo_order_items : list pyval :=
  [VDict [(lit "id", VInt 101); (lit "name", VStr (lit "#1001"));
          (lit "financial_status", VStr (lit "paid"));
          (lit "total_price", VStr (lit "49.00"))];
   VDict [(lit "id", VInt 102); (lit "name", VStr (lit "#1002"));
          (lit "financial_status", VStr (lit "pending"));
          (lit "total_price", VStr (lit "98.00"))]].

Definition demo_customer_items : list pyval :=
  [VDict [(lit "id", VInt 201); (lit "first_name", VStr (lit "Alex"));
          (lit "last_name", VStr (lit "Johnson"));
          (lit "email", VStr (lit "alex@example.com"))];
   VDict [(lit "id", VInt 202); (lit "first_name", VStr (lit "Sam"));
          (lit "last_name", VStr (lit "Lee"));
          (lit "email", VStr (lit "sam@example.com"))]].

Definition demo_products : pyval := VDict [(lit "products", VList demo_product_items)].
Definition demo_orders : pyval := VDict [(lit "orders", VList demo_order_items)].
Definition demo_customers : pyval := VDict [(lit "customers", VList demo_customer_items)].

(** The query parameters of lines 111-113. *)
Definition products_params : option dict := Some [(lit "limit", VInt 5)].
Definition orders_params : option dict :=
  Some [(lit "limit", VInt 5); (lit "status", VStr (lit "any"))].
Definition customers_params : option dict := Some [(lit "limit", VInt 5)].

(** [integ.get("access_token")] *)
Definition token_of (integ : document) : pyval :=
  match dict_get (doc_fields integ) (lit "access_token") with
  | Some v => v
  | None => VNone
  end.

(** [len(body.get(key, [])) if body else 0] *)
Definition count_of (body : pyval) (key : str) : result Z :=
  if truthy body
  then match py_get body key (VList []) with
       | Ok items => py_len items
       | Raise e => Raise e
       end
  else Ok 0%Z.

(** [body.get(key, []) if body else []] *)
Definition items_of (body : pyval) (key : str) : result pyval :=
  if truthy body then py_get body key (VList []) else Ok (VList []).

(** The body of the [try] of lines 145-151. *)
Definition cache_snapshot (domain : str) (summary : dict) : M unit :=
  let snap := DataSnapshot.mk domain summary in
  existing <- find_one (CacheCall SnapFind) snapshots
                (ByField (lit "domain") (VStr domain)) ;;
  match existing with
  | Some e =>
      update_one (CacheCall SnapUpdate) snapshots (ById (doc_id e))
        (DataSnapshot.model_dump snap)
  | None =>
      _ <- create_document (CacheCall SnapCreate) snapshots
             (DataSnapshot.model_dump snap) ;;
      ret tt
  end.

Definition not_found_detail : str :=
  lit "Integration not found. Connect your store first.".

(** [main.py], lines 102-155. *)
Definition shopify_summary (domain : str) : M pyval :=
  let domain := normalize_domain domain in
  configured <- db_bool ;;
  integ <- (if configured
            then find_one (HandlerCall SummaryFind) integrations
                   (ByField (lit "domain") (VStr domain))
            else ret None) ;;
  match integ with
  | None => raise (HTTPException 404 not_found_detail)
  | Some integ =>
      let token := token_of integ in
      '(products, p_err) <- shopify_get domain token (lit "products.json")
                              products_params ;;
      '(orders, o_err) <- shopify_get domain token (lit "orders.json")
                            orders_params ;;
      '(customers, c_err) <- shopify_get domain token (lit "customers.json")
                               customers_params ;;
      let demo := truthy_opt p_err && truthy_opt o_err && truthy_opt c_err in
      let products := if demo then demo_products else products in
      let orders := if demo then demo_orders else orders in
      let customers := if demo then demo_customers else customers in
      n_products <- lift (count_of products (lit "products")) ;;
      n_orders <- lift (count_of orders (lit "orders")) ;;
      n_customers <- lift (count_of customers (lit "customers")) ;;
      l_products <- lift (items_of products (lit "products")) ;;
      l_orders <- lift (items_of orders (lit "orders")) ;;
      l_customers <- lift (items_of customers (lit "customers")) ;;
      let summary :=
        [(lit "demo", VBool demo);
         (lit "counts", VDict [(lit "products", VInt n_products);
                               (lit "orders", VInt n_orders);
                               (lit "customers", VInt n_customers)]);
         (lit "products", l_products);
         (lit "orders", l_orders);
         (lit "customers", l_customers)] in
      try_except (cache_snapshot domain summary) (fun _ => ret tt) ;;
      ret (VDict summary)
  end.

(** ** The liveness and diagnostics handlers *)

(** [main.py], lines 22-24. *)
Definition read_root : M pyval :=
  ret (VDict [(lit "message", VStr (lit "Shopify Integration Backend Running"))]).

(** What the diagnostics handler reads besides the global [db]: the process
    environment, and what [db.list_collection_names()] does (the names, or an
    exception of the driver). *)
Record Host : Type := mkHost {
  getenv : str -> option str;
  list_collection_names : result (list str)
}.

Definition check_mark : str := [9989%N].           (* U+2705 *)
Definition cross_mark : str := [10060%N].          (* U+274C *)
Definition warning_sign : str := [9888%N; 65039%N]. (* U+26A0 U+FE0F *)

Definition not_set : str := cross_mark ++ lit " Not Set".

(** [main.py], lines 27-54.  The dictionary [response] is passed along as it
    is assigned to. *)
Definition test_database (host : Host) : M pyval :=
  let response : dict :=
    [(lit "backend", VStr (check_mark ++ lit " Running"));
     (lit "database", VStr (cross_mark ++ lit " Not Available"));
     (lit "database_url", VStr not_set);
     (lit "database_name", VStr not_set);
     (lit "connection_status", VStr (lit "Not Connected"));
     (lit "collections", VList [])] in
  response <-
    try_except
      (d <- get_db ;;
       match d with
       | Some _ =>
           let response :=
             dict_set response (lit "database")
               (VStr (check_mark ++ lit " Available")) in
           let response :=
             dict_set response (lit "database_url")
               (VStr (if truthy_opt (getenv host (lit "DATABASE_URL"))
                      then check_mark ++ lit " Set" else not_set)) in
           let response :=
             dict_set response (lit "database_name")
               (VStr (match getenv host (lit "DATABASE_NAME") with
                      | Some name => if is_nil name then not_set else name
                      | None => not_set
                      end)) in
           let response :=
             dict_set response (lit "connection_status")
               (VStr (lit "Connected")) in
           try_except
             (names <- lift (list_collection_names host) ;;
              let response :=
                dict_set response (lit "collections")
                  (VList (map VStr (firstn 10 names))) in
              ret (dict_set response (lit "database")
                     (VStr (check_mark ++ lit " Connected & Working"))))
             (fun e =>
                ret (dict_set response (lit "database")
                       (VStr (warning_sign ++ lit " Connected but Error: "
                                ++ firstn 60 (exn_str e)))))
       | None =>
           ret (dict_set response (lit "database")
                  (VStr (warning_sign ++ lit " Available but not initialized")))
       end)
      (fun e =>
         ret (dict_set response (lit "database")
                (VStr (cross_mark ++ lit " Error: " ++ firstn 60 (exn_str e))))) ;;
  ret (VDict response).

(** ** Reading the summary handler *)

(** The record stored for the domain, as [find_one] picks it. *)
Definition lookup_integration (w : World) (domain : str) : option document :=
  match db w with
  | Some st =>
      List.find (matches (ByField (lit "domain") (VStr domain))) (st integrations)
  | None => None
  end.

(** What the truth test of the handle raises, and what a driver call does. *)
Definition handle_error (w : World) : option exn :=
  option_map NotImplementedError (truth_fault w).

Definition site_error (w : World) (op : driver_op) : option exn :=
  fault_at w (HandlerCall op).

(** Line 105: the record the summary works from, or what the line raises. *)
Definition lookup_outcome (w : World) (domain : str) : result (option document) :=
  match db w with
  | None => Ok None
  | Some st =>
      match handle_error w with
      | Some e => Raise e
      | None =>
          match site_error w SummaryFind with
          | Some e => Raise e
          | None =>
              Ok (List.find (matches (ByField (lit "domain") (VStr domain)))
                    (st integrations))
          end
      end
  end.

(** An integration record exists for the domain. *)
Definition has_integration (w : World) (domain : str) : Prop :=
  exists st d,
    db w = Some st /\ In d (st integrations) /\
    dict_get (doc_fields d) (lit "domain") = Some (VStr domain).

Definition rbind {A B : Type} (r : result A) (k : A -> result B) : result B :=
  match r with
  | Ok a => k a
  | Raise e => Raise e
  end.

(** Lines 116-142 as a function of the three fetch results. *)
Definition summary_value (rp ro rc : pyval * option str) : result dict :=
  let demo := truthy_opt (snd rp) && truthy_opt (snd ro) && truthy_opt (snd rc) in
  let products := if demo then demo_products else fst rp in
  let orders := if demo then demo_orders else fst ro in
  let customers := if demo then demo_customers else fst rc in
  rbind (count_of products (lit "products")) (fun n_products =>
  rbind (count_of orders (lit "orders")) (fun n_orders =>
  rbind (count_of customers (lit "customers")) (fun n_customers =>
  rbind (items_of products (lit "products")) (fun l_products =>
  rbind (items_of orders (lit "orders")) (fun l_orders =>
  rbind (items_of customers (lit "customers")) (fun l_customers =>
  Ok [(lit "demo", VBool demo);
      (lit "counts", VDict [(lit "products", VInt n_products);
                            (lit "orders", VInt n_orders);
                            (lit "customers", VInt n_customers)]);
      (lit "products", l_products);
      (lit "orders", l_orders);
      (lit "customers", l_customers)])))))).

(** The three fetch results of a summary run from [w] for a found record. *)
Definition products_fetch (w : World) (domain : str) (integ : document) :=
  nth_fetch w 0 domain (token_of integ) (lit "products.json") products_params.
Definition orders_fetch (w : World) (domain : str) (integ : document) :=
  nth_fetch w 1 domain (token_of integ) (lit "orders.json") orders_params.
Definition customers_fetch (w : World) (domain : str) (integ : document) :=
  nth_fetch w 2 domain (token_of integ) (lit "customers.json") customers_params.

(** The fetch returned an error. *)
Definition is_error (r : pyval * option str) : bool :=
  match snd r with Some _ => true | None => false end.

(** The list a fetch result holds under the resource key (none: empty). *)
Definition items_in (key : str) (r : pyval * option str) : list pyval :=
  match r with
  | (VDict entries, None) =>
      match dict_get entries key with
      | Some (VList items) => items
      | _ => []
      end
  | _ => []
  end.

(** The summary object with the given flag and lists. *)
Definition summary_dict (demo : bool) (products orders customers : list pyval) : dict :=
  [(lit "demo", VBool demo);
   (lit "counts", VDict [(lit "products", VInt (Z.of_nat (List.length products)));
                         (lit "orders", VInt (Z.of_nat (List.length orders)));
                         (lit "customers", VInt (Z.of_nat (List.length customers)))]);
   (lit "products", VList products);
   (lit "orders", VList orders);
   (lit "customers", VList customers)].

(** The demo rule: the response is a summary; it is the demo payload exactly
    when all three fetches returned an error; otherwise every resource is
    the list of its own result, empty when its own fetch failed. *)
Definition demo_rule (w : World) (raw : str) (integ : document) : Prop :=
  let domain := normalize_domain raw in
  let rp := products_fetch w domain integ in
  let ro := orders_fetch w domain integ in
  let rc := customers_fetch w domain integ in
  exists demo lp lo lc,
    response (shopify_summary raw) w = Ok (VDict (summary_dict demo lp lo lc)) /\
    (demo = true <-> is_error rp = true /\ is_error ro = true /\ is_error rc = true) /\
    (demo = true ->
       lp = demo_product_items /\ lo = demo_order_items /\ lc = demo_customer_items) /\
    (demo = false ->
       lp = items_in (lit "products") rp /\ lo = items_in (lit "orders") ro /\
       lc = items_in (lit "customers") rc).

(** A fetch result the summary aggregates as the rule says: an error (its
    body is [None]), a JSON object whose entry for the resource, if any, is a
    list, or any other body that is falsy ([null], [[]], [0], [0.0],
    [false], the empty string). *)
Definition aggregable (key : str) (r : pyval * option str) : bool :=
  match r with
  | (body, Some _) => negb (truthy body)
  | (VDict entries, None) =>
      match dict_get entries key with
      | Some (VList _) | None => true
      | Some _ => false
      end
  | (v, None) => negb (truthy v)
  end.

(** When all three fetches returned an error, each error has a text. *)
Definition told (rp ro rc : pyval * option str) : bool :=
  implb (is_error rp && is_error ro && is_error rc)
        (truthy_opt (snd rp) && truthy_opt (snd ro) && truthy_opt (snd rc)).

(** ** Reading the connect handler *)

Definition by_domain (domain : str) : query := ByField (lit "domain") (VStr domain).

(** Lines 84-90 on the integrations collection: the collection after the
    save, and the identifier returned. *)
Definition upsert_integration (c : collection) (domain token : str) : collection * str :=
  let doc := ShopifyIntegration.model_dump
               (ShopifyIntegration.mk domain token None None) in
  match List.filter (matches (by_domain domain)) c with
  | e0 :: _ => (update_first (ById (doc_id e0)) doc c, oid_str (doc_id e0))
  | [] => (c ++ [mkDocument (fresh_oid c) doc], oid_str (fresh_oid c))
  end.

(** Line 97 on the integrations collection. *)
Definition name_update (c : collection) (domain : str) (shop_name : pyval) : collection :=
  update_first (by_domain domain) [(lit "store_name", shop_name)] c.

(** The verification call of a connect run from [w]. *)
Definition verification (w : World) (payload : ConnectPayload.t) : pyval * option str :=
  nth_fetch w 0 (normalize_domain (ConnectPayload.domain payload))
    (VStr (ConnectPayload.access_token payload)) (lit "shop.json") None.

(** What lines 84-90 raise before they save anything: the refusal of the
    truth test, or the failure of the lookup or of the write they reach. *)
Definition save_error (w : World) (st : Store) (domain : str) : option exn :=
  match handle_error w with
  | Some e => Some e
  | None =>
      match site_error w ConnectFind with
      | Some e => Some e
      | None =>
          match List.filter (matches (by_domain domain)) (st integrations) with
          | _ :: _ => site_error w ConnectUpdate
          | [] => site_error w ConnectInsert
          end
      end
  end.

(** The handle passes its truth test and no driver call of the save fails. *)
Definition connect_ready (w : World) : Prop :=
  truth_fault w = None /\
  driver_fault w ConnectFind = None /\
  driver_fault w ConnectUpdate = None /\
  driver_fault w ConnectInsert = None.

(** The integration records stored for a domain. *)
Definition records_for (st : Store) (domain : str) : list document :=
  List.filter (matches (by_domain domain)) (st integrations).

(** Identifiers are unique, and no domain has two integration records. *)
Definition store_ok (st : Store) : Prop :=
  NoDup (map doc_id (st integrations)) /\
  forall domain, (List.length (records_for st domain) <= 1)%nat.

(** The [domain] field of a stored document. *)
Definition domain_of (d : document) : option pyval :=
  dict_get (doc_fields d) (lit "domain").

(** The document [update_one] makes of a matching one. *)
Definition updated (fields : dict) (d : document) : document :=
  mkDocument (doc_id d) (dict_update (doc_fields d) fields).

(** The collection holds a record of the domain carrying the token. *)
Definition holds (c : collection) (domain token : str) : Prop :=
  exists d,
    In d c /\ domain_of d = Some (VStr domain) /\
    dict_get (doc_fields d) (lit "access_token") = Some (VStr token).







(** ** Reading the cache write *)

(** Lines 146-151 on the snapshots collection, when no driver call fails. *)
Definition upsert_snapshot (c : collection) (domain : str) (summary : dict) : collection :=
  let snap := DataSnapshot.model_dump (DataSnapshot.mk domain summary) in
  match List.find (matches (by_domain domain)) c with
  | Some e => update_first (ById (doc_id e)) snap c
  | None => c ++ [mkDocument (fresh_oid c) snap]
  end.

(** The snapshots stored for a domain. *)
Definition snapshots_for (st : Store) (domain : str) : list document :=
  List.filter (matches (by_domain domain)) (st snapshots).

(** Snapshot identifiers are unique, and no domain has two snapshots. *)
Definition snapshots_ok (st : Store) : Prop :=
  NoDup (map doc_id (st snapshots)) /\
  forall domain, (List.length (snapshots_for st domain) <= 1)%nat.

(** [w'] is [w] after [calls] upstream calls, apart from its database. *)
Definition same_host (w w' : World) (calls : nat) : Prop :=
  net w' = net w /\ clock w' = (calls + clock w)%nat /\
  snapshot_fault w' = snapshot_fault w /\ spare_id w' = spare_id w /\
  truth_fault w' = truth_fault w /\ driver_fault w' = driver_fault w.

(** The [id] entry of a connect response. *)
Definition response_id (v : pyval) : option pyval :=
  match v with
  | VDict entries => dict_get entries (lit "id")
  | _ => None
  end.

(** ** The service as a transition system *)

(** One request handled, or a change of which driver calls fail. *)
Inductive step : World -> World -> Prop :=
| step_connect : forall payload w, step w (after (connect_shopify payload) w)
| step_summary : forall raw w, step w (after (shopify_summary raw) w)
| step_faults : forall faults w, step w (set_snapshot_fault w faults)
| step_driver : forall faults w, step w (set_driver_fault w faults).

Inductive reachable (w0 : World) : World -> Prop :=
| reach_start : reachable w0 w0
| reach_step : forall w w', reachable w0 w -> step w w' -> reachable w0 w'.

(** What the aggregation itself can raise. *)
Definition runtime_error (e : exn) : Prop :=
  exists msg, e = AttributeError msg \/ e = TypeError msg.

(** *** Sample worlds *)

(** A store holding one integration record, for [acme.myshopify.com]. *)
Definition acme_record : document :=
  mkDocument 1 [(lit "domain", VStr (lit "acme.myshopify.com"));
                (lit "access_token", VStr (lit "shpat_1"));
                (lit "store_name", VNone);
                (lit "scopes", VNone)].

Definition acme_store : Store :=
  fun name => if str_eqb name integrations then [acme_record] else [].

Definition no_faults : snap_op -> option str := fun _ => None.

(** No driver call of the handlers fails. *)
Definition quiet : driver_op -> option driver_error := fun _ => None.

(** The text of the refusal of a PyMongo 4 [Database]. *)
Definition no_truth_value : str :=
  lit "Database objects do not implement truth value testing or bool(). "
  ++ lit "Please compare with None instead: database is not None".



(** Only the products call succeeds, with three products. *)
Definition world_products_only : World :=
  mkWorld (Some acme_store)
    (fun _ req =>
       if endswith (req_url req) (lit "products.json")
       then Responded (mkResponse 200 (lit "{...}")
              (Parsed (VDict [(lit "products",
                               VList [VInt 11; VInt 12; VInt 13])])))
       else Responded (mkResponse 401 (lit "Unauthorized") (Malformed (lit "no JSON"))))
    0 no_faults (lit "tmp") None quiet.

Definition acme_payload : ConnectPayload.t :=
  ConnectPayload.mk (lit "acme") (lit "shpat_2").

Definition empty_store : Store := fun _ => [].

(** A verification answer carrying the given body. *)
Definition answers (body : pyval) : nat -> Request -> http_outcome :=
  fun _ _ => Responded (mkResponse 200 (lit "(body)") (Parsed body)).

Definition shop_named (name : pyval) : pyval :=
  VDict [(lit "shop", VDict [(lit "name", name)])].

(** No database is configured; the shop answers with its name. *)
Definition world_no_database : World :=
  mkWorld None (answers (shop_named (VStr (lit "Acme")))) 0
    no_faults (lit "tmp") None quiet.

(** No database is configured; the verification call times out. *)
Definition world_no_database_timeout : World :=
  mkWorld None (fun _ _ => TransportError (lit "timed out")) 0
    no_faults (lit "tmp") None quiet.

(** An empty database; the shop answers with its name. *)
Definition world_verified : World :=
  mkWorld (Some empty_store) (answers (shop_named (VStr (lit "Acme")))) 0
    no_faults (lit "tmp") None quiet.

(** An empty database; the verification call answers 401. *)
Definition world_unauthorized : World :=
  mkWorld (Some empty_store)
    (fun _ _ => Responded (mkResponse 401 (lit "Unauthorized") (Malformed (lit "no JSON"))))
    0 no_faults (lit "tmp") None quiet.




(** A store whose record for [acme.myshopify.com] carries a store name. *)
Definition acme_named_record : document :=
  mkDocument 7 [(lit "domain", VStr (lit "acme.myshopify.com"));
                (lit "access_token", VStr (lit "shpat_1"));
                (lit "store_name", VStr (lit "Acme"));
                (lit "scopes", VNone)].

Definition other_record : document :=
  mkDocument 8 [(lit "domain", VStr (lit "other.myshopify.com"));
                (lit "access_token", VStr (lit "shpat_9"));
                (lit "store_name", VStr (lit "Other"));
                (lit "scopes", VNone)].

Definition two_stores : Store :=
  fun name =>
    if str_eqb name integrations then [acme_named_record; other_record] else [].

(** Two stores are registered; every upstream call answers 401. *)
Definition world_two_stores : World :=
  mkWorld (Some two_stores)
    (fun _ _ => Responded (mkResponse 401 (lit "Unauthorized") (Malformed (lit "no JSON"))))
    0 no_faults (lit "tmp") None quiet.

(** The acme store on a handle that refuses truth value testing; the shop
    answers with its name. *)
Definition world_untestable : World :=
  mkWorld (Some acme_store) (answers (shop_named (VStr (lit "Acme")))) 0
    no_faults (lit "tmp") (Some no_truth_value) quiet.

(** An empty database on such a handle. *)
Definition world_untestable_empty : World :=
  mkWorld (Some empty_store) (answers (shop_named (VStr (lit "Acme")))) 0
    no_faults (lit "tmp") (Some no_truth_value) quiet.





(** A host with both variables set whose listing has twelve collections. *)
Definition host_twelve : Host :=
  mkHost (fun name =>
            if str_eqb name (lit "DATABASE_URL") then Some (lit "mongodb://db")
            else if str_eqb name (lit "DATABASE_NAME") then Some (lit "shop")
            else None)
         (Ok (map (fun n => lit "c" ++ decimal (Z.of_nat n)) (seq 0 12))).

(** A host with both variables set whose listing fails. *)
Definition host_unreachable : Host :=
  mkHost (getenv host_twelve) (Raise (PyMongoError (lit "server selection timed out"))).

(** ** The normalizer as the specification words it *)

(** [s.removeprefix(p)] *)
Definition removeprefix (s p : str) : str :=
  if startswith s p then skipn (List.length p) s else s.

(** Strip the two schemes as prefixes, keep what precedes the first slash,
    append the suffix unless it is there already. *)
Definition normalize_as_stated (x : str) : str :=
  let d := removeprefix (removeprefix x (lit "http://")) (lit "https://") in
  let d := hd [] (split d slash) in
  if endswith d myshopify_suffix then d else d ++ myshopify_suffix.

(** [pat in s] *)
Fixpoint occurs (s pat : str) : bool :=
  match s with
  | [] => startswith [] pat
  | _ :: rest => startswith s pat || occurs rest pat
  end.

(** [core] is [x] without its leading and trailing whitespace. *)
Definition trimmed (x core : str) : Prop :=
  exists l r,
    x = l ++ core ++ r /\
    forallb is_space l = true /\ forallb is_space r = true /\
    (forall c t, core = c :: t -> is_space c = false) /\
    (forall t c, core = t ++ [c] -> is_space c = false).

(** [r] is [s] with every occurrence of [pat] deleted, scanning from the left. *)
Inductive removed_all (pat : str) : str -> str -> Prop :=
| removed_nil : removed_all pat [] []
| removed_hit : forall s r,
    removed_all pat s r -> removed_all pat (pat ++ s) r
| removed_keep : forall c s r,
    (forall t, c :: s <> pat ++ t) ->
    removed_all pat s r -> removed_all pat (c :: s) (c :: r).

(** [seg] is the part of [d] before its first slash (all of [d] without one). *)
Definition first_segment (d seg : str) : Prop :=
  ~ In slash seg /\ (d = seg \/ exists rest, d = seg ++ slash :: rest).

(** [out] is [seg] with the store suffix appended unless [seg] ends with it. *)
Definition suffixed (seg out : str) : Prop :=
  ((exists z, seg = z ++ myshopify_suffix) /\ out = seg) \/
  ((forall z, seg <> z ++ myshopify_suffix) /\ out = seg ++ myshopify_suffix).

(** * Properties *)

(** ** Strings *)

Lemma str_eqb_eq (a b : str) : str_eqb a b = true <-> a = b.
Proof.
  revert b. induction a as [|x a IH]; intros [|y b]; simpl; split; intro H;
    try reflexivity; try discriminate.
  - apply andb_true_iff in H. destruct H as [H1 H2].
    apply N.eqb_eq in H1. apply IH in H2. congruence.
  - injection H as -> ->. rewrite N.eqb_refl. simpl. apply IH. reflexivity.
Qed.

Lemma str_eqb_refl (a : str) : str_eqb a a = true.
Proof. apply str_eqb_eq. reflexivity. Qed.

Lemma startswith_spec (s p : str) :
  startswith s p = true <-> exists t, s = p ++ t.
Proof.
  revert s. induction p as [|x p IH]; intros s; simpl.
  - split; [intros _; exists s; reflexivity | reflexivity].
  - destruct s as [|y s].
    + split; [discriminate | intros [t H]; discriminate].
    + split.
      * intros H. apply andb_true_iff in H. destruct H as [H1 H2].
        apply N.eqb_eq in H1. apply IH in H2. destruct H2 as [t ->].
        exists t. congruence.
      * intros [t H]. injection H as -> ->. rewrite N.eqb_refl. simpl.
        apply IH. exists t. reflexivity.
Qed.

Lemma startswith_app (p t : str) : startswith (p ++ t) p = true.
Proof. apply startswith_spec. exists t. reflexivity. Qed.

Lemma startswith_false (s p : str) :
  startswith s p = false <-> forall t, s <> p ++ t.
Proof.
  split.
  - intros H t E. assert (startswith s p = true) by (apply startswith_spec; eauto).
    congruence.
  - intros H. destruct (startswith s p) eqn:E; [|reflexivity].
    apply startswith_spec in E. destruct E as [t E]. exfalso. exact (H t E).
Qed.

Lemma endswith_spec (s p : str) :
  endswith s p = true <-> exists z, s = z ++ p.
Proof.
  unfold endswith. rewrite startswith_spec. split.
  - intros [t H]. exists (rev t).
    rewrite <- (rev_involutive s), H, rev_app_distr, rev_involutive. reflexivity.
  - intros [z ->]. exists (rev z). apply rev_app_distr.
Qed.

Lemma endswith_false (s p : str) :
  endswith s p = false <-> forall z, s <> z ++ p.
Proof.
  split.
  - intros H z E. assert (endswith s p = true) by (apply endswith_spec; eauto).
    congruence.
  - intros H. destruct (endswith s p) eqn:E; [|reflexivity].
    apply endswith_spec in E. destruct E as [z E]. exfalso. exact (H z E).
Qed.

(** *** [replace] *)

Lemma replace_from_skip (old new : str) (k : nat) (s : str) :
  replace_from old new k s = replace_from old new 0 (skipn k s).
Proof.
  revert k. induction s as [|c s IH]; intros [|k]; simpl; try reflexivity.
  apply IH.
Qed.

Lemma replace_from_hit (x : char) (old new t : str) :
  replace_from (x :: old) new 0 ((x :: old) ++ t)
  = new ++ replace_from (x :: old) new 0 t.
Proof.
  change (replace_from (x :: old) new 0 ((x :: old) ++ t))
    with (if startswith ((x :: old) ++ t) (x :: old)
          then new ++ replace_from (x :: old) new (List.length (x :: old) - 1) (old ++ t)
          else x :: replace_from (x :: old) new 0 (old ++ t)).
  rewrite startswith_app, replace_from_skip.
  replace (List.length (x :: old) - 1) with (List.length old) by (simpl; lia).
  rewrite skipn_app, skipn_all, Nat.sub_diag. reflexivity.
Qed.

Lemma replace_from_keep (old new : str) (c : char) (s : str) :
  startswith (c :: s) old = false ->
  replace_from old new 0 (c :: s) = c :: replace_from old new 0 s.
Proof.
  intros H.
  change (replace_from old new 0 (c :: s))
    with (if startswith (c :: s) old
          then new ++ replace_from old new (List.length old - 1) s
          else c :: replace_from old new 0 s).
  rewrite H. reflexivity.
Qed.

Lemma replace_removes_all (x : char) (pat s : str) :
  removed_all (x :: pat) s (replace s (x :: pat) []).
Proof.
  unfold replace.
  remember (List.length s) as n eqn:Hn.
  revert s Hn. induction n as [n IH] using lt_wf_ind. intros s Hn.
  destruct s as [|c s].
  - constructor.
  - destruct (startswith (c :: s) (x :: pat)) eqn:E.
    + apply startswith_spec in E. destruct E as [t E]. rewrite E.
      rewrite replace_from_hit. simpl app at 2.
      apply removed_hit. apply (IH (List.length t)); [|reflexivity].
      subst n. rewrite E. simpl. rewrite length_app. lia.
    + rewrite replace_from_keep by exact E.
      apply removed_keep; [apply startswith_false; exact E|].
      apply (IH (List.length s)); [subst n; simpl; lia | reflexivity].
Qed.

Lemma startswith_In (s p : str) (c : char) :
  startswith s p = true -> In c p -> In c s.
Proof.
  intros H Hc. apply startswith_spec in H. destruct H as [t ->].
  apply in_or_app. left. exact Hc.
Qed.

Lemma replace_absent (old new s : str) (c : char) :
  In c old -> ~ In c s -> replace s old new = s.
Proof.
  intros Hc. destruct old as [|x old]; [destruct Hc|]. unfold replace.
  induction s as [|y s IH]; intros Hs; [reflexivity|].
  rewrite replace_from_keep.
  - f_equal. apply IH. intros H. apply Hs. right. exact H.
  - destruct (startswith (y :: s) (x :: old)) eqn:E; [|reflexivity].
    exfalso. apply Hs. eapply startswith_In; eauto.
Qed.

(** *** [strip] *)

Lemma lstrip_split (s : str) :
  exists l, s = l ++ lstrip s /\ forallb is_space l = true.
Proof.
  induction s as [|c s [l [E F]]]; simpl.
  - exists []. split; reflexivity.
  - destruct (is_space c) eqn:Hc.
    + exists (c :: l). simpl. rewrite Hc, F. split; [congruence | reflexivity].
    + exists []. split; reflexivity.
Qed.

Lemma lstrip_head (s : str) (c : char) (t : str) :
  lstrip s = c :: t -> is_space c = false.
Proof.
  induction s as [|y s IH]; simpl; [discriminate|].
  destruct (is_space y) eqn:Hy; [exact IH|].
  intros H. injection H as -> _. exact Hy.
Qed.

Lemma lstrip_fixed (c : char) (s : str) :
  is_space c = false -> lstrip (c :: s) = c :: s.
Proof. intros H. simpl. rewrite H. reflexivity. Qed.

Lemma forallb_rev {A : Type} (f : A -> bool) (l : list A) :
  forallb f l = true -> forallb f (rev l) = true.
Proof.
  rewrite !forallb_forall. intros H x Hx. apply H. apply in_rev. exact Hx.
Qed.

Lemma rstrip_split (s : str) :
  exists r, s = rstrip s ++ r /\ forallb is_space r = true.
Proof.
  unfold rstrip. destruct (lstrip_split (rev s)) as [l [E F]].
  exists (rev l). split; [|apply forallb_rev; exact F].
  rewrite <- rev_app_distr, <- E, rev_involutive. reflexivity.
Qed.

Lemma rstrip_last (s t : str) (c : char) :
  rstrip s = t ++ [c] -> is_space c = false.
Proof.
  unfold rstrip. intros H.
  apply (lstrip_head (rev s) (t := rev t)).
  rewrite <- (rev_involutive (lstrip (rev s))), H, rev_app_distr. reflexivity.
Qed.

Lemma rstrip_fixed (s : str) (c : char) :
  is_space c = false -> rstrip (s ++ [c]) = s ++ [c].
Proof.
  intros H. unfold rstrip. rewrite rev_app_distr.
  change (rev [c] ++ rev s) with (c :: rev s).
  rewrite lstrip_fixed by exact H.
  change (rev (c :: rev s)) with (rev (rev s) ++ [c]).
  rewrite rev_involutive. reflexivity.
Qed.

Lemma strip_trimmed (x : str) : trimmed x (strip x).
Proof.
  unfold strip.
  destruct (lstrip_split x) as [l [El Fl]].
  destruct (rstrip_split (lstrip x)) as [r [Er Fr]].
  exists l, r. repeat split; try assumption.
  - rewrite <- Er. exact El.
  - intros c t H. rewrite H in Er. simpl in Er.
    eapply lstrip_head. exact Er.
  - intros t c H. eapply rstrip_last. exact H.
Qed.

(** *** [split] *)

Lemma split_first_segment (d : str) : first_segment d (hd [] (split d slash)).
Proof.
  induction d as [|c d [Hn Hd]]; simpl.
  - split; [intros [] | left; reflexivity].
  - destruct (N.eqb c slash) eqn:Ec; simpl.
    + apply N.eqb_eq in Ec. subst c.
      split; [intros [] | right; exists d; reflexivity].
    + apply N.eqb_neq in Ec.
      destruct (split d slash) as [|seg segs]; simpl in *.
      * split; [intros [H|[]]; congruence|].
        destruct Hd as [->|[rest ->]]; [left | right; exists rest]; reflexivity.
      * split; [intros [H|H]; [congruence | exact (Hn H)]|].
        destruct Hd as [->|[rest ->]]; [left | right; exists rest]; reflexivity.
Qed.

Lemma split_no_slash (s : str) : ~ In slash s -> hd [] (split s slash) = s.
Proof.
  intros H. destruct (split_first_segment s) as [_ [E|[rest E]]].
  - symmetry. exact E.
  - exfalso. apply H. rewrite E. apply in_or_app. right. left. reflexivity.
Qed.

Lemma suffix_step (seg : str) :
  suffixed seg (if endswith seg myshopify_suffix then seg else seg ++ myshopify_suffix).
Proof.
  destruct (endswith seg myshopify_suffix) eqn:E.
  - left. split; [apply endswith_spec; exact E | reflexivity].
  - right. split; [apply endswith_false; exact E | reflexivity].
Qed.

(** C3 (amended): on every input, [normalize_domain] trims the surrounding
    whitespace, deletes every occurrence of [http://] and then every
    occurrence of [https://], keeps what precedes the first slash, and appends
    [.myshopify.com] unless the segment already ends with it. *)
Theorem normalize_domain_steps (x : str) :
  exists core d1 d2 seg,
    trimmed x core /\
    removed_all (lit "http://") core d1 /\
    removed_all (lit "https://") d1 d2 /\
    first_segment d2 seg /\
    suffixed seg (normalize_domain x).
Proof.
  exists (strip x),
         (replace (strip x) (lit "http://") []),
         (replace (replace (strip x) (lit "http://") []) (lit "https://") []),
         (hd [] (split (replace (replace (strip x) (lit "http://") [])
                          (lit "https://") []) slash)).
  split; [apply strip_trimmed|].
  split; [exact (replace_removes_all _ _ _)|].
  split; [exact (replace_removes_all _ _ _)|].
  split; [apply split_first_segment|].
  apply suffix_step.
Qed.

(** C3, as stated, fails: a scheme that is not a prefix is deleted too, and
    surrounding whitespace is trimmed first. *)
Lemma normalize_domain_not_prefix_only :
  normalize_domain (lit "ahttp://b") <> normalize_as_stated (lit "ahttp://b") /\
  normalize_domain (lit " acme") <> normalize_as_stated (lit " acme").
Proof. split; vm_compute; discriminate. Qed.

(** *** The shape of a normalized domain *)

Lemma suffix_no_slash : ~ In slash myshopify_suffix.
Proof. vm_compute. intuition discriminate. Qed.

Lemma normalize_shape (x : str) :
  exists z, normalize_domain x = z ++ myshopify_suffix /\ ~ In slash z.
Proof.
  unfold normalize_domain.
  set (d := replace _ _ _).
  destruct (split_first_segment d) as [Hn _].
  destruct (endswith (hd [] (split d slash)) myshopify_suffix) eqn:E.
  - apply endswith_spec in E. destruct E as [z E]. exists z.
    split; [exact E|]. intros H. apply Hn. rewrite E. apply in_or_app. left. exact H.
  - exists (hd [] (split d slash)). split; [reflexivity | exact Hn].
Qed.

Lemma lstrip_keeps_suffix (z : str) :
  exists z', lstrip (z ++ myshopify_suffix) = z' ++ myshopify_suffix /\
             (forall c, In c z' -> In c z).
Proof.
  induction z as [|c z [z' [E H]]].
  - exists []. split; [reflexivity | intros c []].
  - simpl. destruct (is_space c).
    + exists z'. split; [exact E | intros y Hy; right; apply H; exact Hy].
    + exists (c :: z). split; [reflexivity | intros y Hy; exact Hy].
Qed.

Lemma rstrip_suffixed (z : str) :
  rstrip (z ++ myshopify_suffix) = z ++ myshopify_suffix.
Proof.
  change myshopify_suffix with (lit ".myshopify.co" ++ [109%N]).
  rewrite app_assoc. apply rstrip_fixed. reflexivity.
Qed.

(** On a string already in normalized shape only the leading whitespace goes. *)
Lemma normalize_suffixed (z : str) :
  ~ In slash z ->
  normalize_domain (z ++ myshopify_suffix) = lstrip (z ++ myshopify_suffix).
Proof.
  intros Hz. unfold normalize_domain, strip.
  destruct (lstrip_keeps_suffix z) as [z' [E H]]. rewrite E.
  rewrite rstrip_suffixed.
  assert (Hs : ~ In slash (z' ++ myshopify_suffix)).
  { intros Hi. apply in_app_or in Hi. destruct Hi as [Hi|Hi].
    - apply Hz, H, Hi.
    - exact (suffix_no_slash Hi). }
  rewrite (@replace_absent (lit "http://") [] _ slash); [|vm_compute; tauto | exact Hs].
  rewrite (@replace_absent (lit "https://") [] _ slash); [|vm_compute; tauto | exact Hs].
  rewrite split_no_slash by exact Hs.
  assert (Ee : endswith (z' ++ myshopify_suffix) myshopify_suffix = true).
  { apply endswith_spec. exists z'. reflexivity. }
  rewrite Ee. reflexivity.
Qed.

Lemma normalize_twice (x : str) :
  normalize_domain (normalize_domain x) = lstrip (normalize_domain x).
Proof.
  destruct (normalize_shape x) as [z [E Hz]]. rewrite E.
  apply normalize_suffixed. exact Hz.
Qed.

(** C6 (amended): normalizing twice gives the normalized domain without its
    leading whitespace, so [normalize_domain] is idempotent exactly on the
    inputs whose normalized form does not begin with whitespace; the three
    sample normalizations hold. *)
Theorem normalize_domain_idempotent_up_to_lstrip (x : str) :
  normalize_domain (normalize_domain x) = lstrip (normalize_domain x) /\
  (normalize_domain (normalize_domain x) = normalize_domain x <->
   lstrip (normalize_domain x) = normalize_domain x) /\
  normalize_domain (lit "https://acme.myshopify.com/admin") = lit "acme.myshopify.com" /\
  normalize_domain (lit "acme") = lit "acme.myshopify.com" /\
  normalize_domain (lit "acme.myshopify.com") = lit "acme.myshopify.com".
Proof.
  split; [apply normalize_twice|].
  split; [rewrite normalize_twice; tauto|].
  repeat split; reflexivity.
Qed.

(** C6, as stated, fails: whitespace that follows a deleted scheme survives
    the first normalization and is trimmed by the second. *)
Lemma normalize_domain_not_idempotent :
  normalize_domain (normalize_domain (lit "http:// a"))
  <> normalize_domain (lit "http:// a").
Proof. vm_compute. discriminate. Qed.

(** ** The Shopify client *)

Lemma shopify_get_run (domain : str) (token : pyval) (path : str)
    (params : option dict) (w : World) :
  shopify_get domain token path params w
  = (Ok (nth_fetch w 0 domain token path params), tick w).
Proof.
  unfold shopify_get, nth_fetch, fetch_result, fetch_request, try_except, bind,
    requests_get, response_json, http_error. rewrite Nat.add_0_r.
  destruct (net w (clock w) _) as [r|msg]; [|reflexivity].
  destruct (status_code r =? 200)%Z; [|reflexivity].
  destruct (json r); reflexivity.
Qed.

(** C10: whatever the arguments and whatever the upstream does -- a transport
    exception, a body that does not decode -- [shopify_get] returns a
    (body, error) pair and raises nothing. *)
Theorem shopify_get_never_raises (domain : str) (token : pyval) (path : str)
    (params : option dict) (w : World) :
  exists body err w',
    shopify_get domain token path params w = (Ok (body, err), w').
Proof.
  rewrite shopify_get_run.
  destruct (nth_fetch w 0 domain token path params) as [body err].
  exists body, err, (tick w). reflexivity.
Qed.

(** C9: on status 200 the parsed body and no error; on any other status no
    body and the error text [HTTP <status>: <first 200 characters>]; on a
    failure of the transport (a response that does not decode included) no
    body and the failure's description; so the call always ends in a pair,
    either the parsed body without an error or an error without a body, and
    never in an exception. *)
Theorem shopify_get_contract (domain : str) (token : pyval) (path : str)
    (params : option dict) (w : World) :
  let o := net w (clock w) (fetch_request domain token path params) in
  let out := response (shopify_get domain token path params) w in
  (forall r v, o = Responded r -> status_code r = 200%Z -> json r = Parsed v ->
     out = Ok (v, None)) /\
  (forall r, o = Responded r -> status_code r <> 200%Z ->
     out = Ok (VNone, Some (lit "HTTP " ++ decimal (status_code r) ++ lit ": "
                              ++ firstn 200 (text r)))) /\
  (forall msg,
     o = TransportError msg \/
     (exists r, o = Responded r /\ status_code r = 200%Z /\ json r = Malformed msg) ->
     out = Ok (VNone, Some msg)) /\
  ((exists r v, o = Responded r /\ status_code r = 200%Z /\ json r = Parsed v /\
                out = Ok (v, None)) \/
   (exists msg, out = Ok (VNone, Some msg))).
Proof.
  intros o out. unfold out, response. rewrite shopify_get_run.
  unfold nth_fetch. rewrite Nat.add_0_r. fold o. simpl fst.
  repeat split.
  - intros r v -> Hs Hj. simpl. rewrite Hs, Hj. reflexivity.
  - intros r -> Hs. simpl. apply Z.eqb_neq in Hs. rewrite Hs. reflexivity.
  - intros msg [-> | [r [-> [Hs Hj]]]]; simpl; [reflexivity|].
    rewrite Hs, Hj. reflexivity.
  - destruct o as [r|msg]; simpl; [|right; eauto].
    destruct (status_code r =? 200)%Z eqn:Hs; [|right; eauto].
    apply Z.eqb_eq in Hs.
    destruct (json r) as [v|msg] eqn:Hj; [|right; eauto].
    left. exists r, v. auto.
Qed.

(** ** The summary handler *)

Lemma nth_fetch_tick (w : World) (k : nat) (domain : str) (token : pyval)
    (path : str) (params : option dict) :
  nth_fetch (tick w) k domain token path params
  = nth_fetch w (S k) domain token path params.
Proof. unfold nth_fetch. simpl. rewrite Nat.add_succ_r. reflexivity. Qed.

Lemma try_pass_ok (m : M unit) (w : World) :
  exists w', try_except m (fun _ => ret tt) w = (Ok tt, w').
Proof.
  unfold try_except, ret. destruct (m w) as [[[]|e] w']; eauto.
Qed.

(** The response of the summary, read off the lookup and the three fetches. *)
Lemma summary_run (w : World) (raw : str) :
  response (shopify_summary raw) w =
  match lookup_outcome w (normalize_domain raw) with
  | Raise e => Raise e
  | Ok None => Raise (HTTPException 404 not_found_detail)
  | Ok (Some integ) =>
      rbind (summary_value (products_fetch w (normalize_domain raw) integ)
               (orders_fetch w (normalize_domain raw) integ)
               (customers_fetch w (normalize_domain raw) integ))
            (fun s => Ok (VDict s))
  end.
Proof.
  unfold response, shopify_summary, lookup_outcome, handle_error, site_error,
    db_bool, find_one, db_getitem, driver_call.
  cbv [bind]. destruct (db w) as [st|] eqn:Hdb; [|reflexivity].
  destruct (truth_fault w) as [msg|]; [reflexivity|]. cbn [option_map].
  rewrite Hdb. cbv [ret].
  destruct (fault_at w (HandlerCall SummaryFind)) as [e|]; [reflexivity|].
  destruct (List.find _ (st integrations)) as [integ|]; [|reflexivity].
  rewrite shopify_get_run.
  unfold products_fetch, orders_fetch, customers_fetch.
  destruct (nth_fetch w 0 _ _ _ _) as [products p_err].
  rewrite shopify_get_run, nth_fetch_tick.
  destruct (nth_fetch w 1 _ _ _ _) as [orders o_err].
  rewrite shopify_get_run, !nth_fetch_tick.
  destruct (nth_fetch w 2 _ _ _ _) as [customers c_err].
  unfold summary_value, lift. cbv [fst snd].
  destruct (count_of _ (lit "products")); [|reflexivity].
  destruct (count_of _ (lit "orders")); [|reflexivity].
  destruct (count_of _ (lit "customers")); [|reflexivity].
  destruct (items_of _ (lit "products")); [|reflexivity].
  destruct (items_of _ (lit "orders")); [|reflexivity].
  destruct (items_of _ (lit "customers")); [|reflexivity].
  cbv [rbind]. cbv beta.
  match goal with
  | |- context [try_except ?m ?h ?w0] =>
      destruct (try_pass_ok m w0) as [w' E]; unfold ret in E; rewrite E
  end.
  reflexivity.
Qed.

(** When the handle passes its truth test and the lookup does not fail,
    line 105 yields the stored record. *)
Lemma lookup_found (w : World) (domain : str) :
  truth_fault w = None -> driver_fault w SummaryFind = None ->
  lookup_outcome w domain = Ok (lookup_integration w domain).
Proof.
  intros Ht Hf. unfold lookup_outcome, lookup_integration, handle_error, site_error,
    fault_at.
  rewrite Ht, Hf. destruct (db w); reflexivity.
Qed.

Lemma lookup_outcome_some (w : World) (domain : str) (integ : document) :
  lookup_outcome w domain = Ok (Some integ) ->
  lookup_integration w domain = Some integ.
Proof.
  unfold lookup_outcome, lookup_integration.
  destruct (db w) as [st|]; [|discriminate].
  destruct (handle_error w); [discriminate|].
  destruct (site_error w SummaryFind); [discriminate|]. congruence.
Qed.

Lemma pyval_eqb_str (a : str) (v : pyval) :
  pyval_eqb (VStr a) v = true <-> v = VStr a.
Proof.
  destruct v; simpl; split; intro H; try discriminate.
  - apply str_eqb_eq in H. congruence.
  - injection H as ->. apply str_eqb_refl.
Qed.

Lemma matches_field_str (k s : str) (d : document) :
  matches (ByField k (VStr s)) d = true <->
  dict_get (doc_fields d) k = Some (VStr s).
Proof.
  unfold matches. destruct (dict_get (doc_fields d) k) as [v|].
  - rewrite pyval_eqb_str. split; congruence.
  - simpl. split; discriminate.
Qed.

Lemma lookup_none_iff (w : World) (domain : str) :
  lookup_integration w domain = None <-> ~ has_integration w domain.
Proof.
  unfold lookup_integration, has_integration. split.
  - intros H [st [d [Hdb [Hin Hd]]]]. rewrite Hdb in H.
    apply (find_none _ _ H) in Hin.
    apply matches_field_str in Hd. congruence.
  - intros H. destruct (db w) as [st|]; [|reflexivity].
    destruct (List.find _ (st integrations)) as [d|] eqn:E; [|reflexivity].
    exfalso. apply H. apply find_some in E. destruct E as [Hin Hm].
    exists st, d. repeat split; [exact Hin|]. apply matches_field_str. exact Hm.
Qed.

Lemma py_get_raise (v : pyval) (k : str) (d : pyval) (e : exn) :
  py_get v k d = Raise e -> runtime_error e.
Proof.
  destruct v; simpl; intros H; try discriminate;
    injection H as <-; eexists; left; reflexivity.
Qed.

Lemma py_len_raise (v : pyval) (e : exn) :
  py_len v = Raise e -> runtime_error e.
Proof.
  destruct v; simpl; intros H; try discriminate;
    injection H as <-; eexists; right; reflexivity.
Qed.

Lemma count_of_raise (body : pyval) (k : str) (e : exn) :
  count_of body k = Raise e -> runtime_error e.
Proof.
  unfold count_of. destruct (truthy body); [|discriminate].
  destruct (py_get body k (VList [])) as [items|e'] eqn:E.
  - apply py_len_raise.
  - intros H. injection H as <-. eapply py_get_raise. exact E.
Qed.

Lemma items_of_raise (body : pyval) (k : str) (e : exn) :
  items_of body k = Raise e -> runtime_error e.
Proof.
  unfold items_of. destruct (truthy body); [|discriminate]. apply py_get_raise.
Qed.

Lemma summary_value_raise (rp ro rc : pyval * option str) (e : exn) :
  summary_value rp ro rc = Raise e -> runtime_error e.
Proof.
  unfold summary_value. cbv zeta. cbv [rbind].
  repeat match goal with
  | |- match ?r with Ok _ => _ | Raise _ => _ end = Raise _ -> _ =>
      let E := fresh "E" in
      destruct r eqn:E;
      [| intros H; injection H as <-;
         first [eapply count_of_raise; eassumption
               | eapply items_of_raise; eassumption]]
  end.
  discriminate.
Qed.

Lemma summary_found_no_http_error (w : World) (raw : str) (integ : document)
    (status : Z) (detail : str) :
  lookup_outcome w (normalize_domain raw) = Ok (Some integ) ->
  response (shopify_summary raw) w <> Raise (HTTPException status detail).
Proof.
  intros Hl. rewrite summary_run, Hl.
  destruct (summary_value _ _ _) as [s|e] eqn:E; simpl; [discriminate|].
  apply summary_value_raise in E. destruct E as [msg [-> | ->]]; discriminate.
Qed.

(** What line 105 does, case by case. *)
Lemma lookup_outcome_cases (w : World) (domain : str) :
  (db w = None /\ lookup_outcome w domain = Ok None) \/
  (exists st msg, db w = Some st /\ truth_fault w = Some msg /\
     lookup_outcome w domain = Raise (NotImplementedError msg)) \/
  (exists st e, db w = Some st /\ truth_fault w = None /\
     driver_fault w SummaryFind = Some e /\
     lookup_outcome w domain = Raise (driver_exn e)) \/
  (exists st, db w = Some st /\ truth_fault w = None /\
     driver_fault w SummaryFind = None /\
     lookup_outcome w domain = Ok (lookup_integration w domain)).
Proof.
  unfold lookup_outcome, lookup_integration, handle_error, site_error, fault_at.
  destruct (db w) as [st|]; [|left; split; reflexivity].
  destruct (truth_fault w) as [msg|]; cbn [option_map].
  { right; left. exists st, msg. repeat split. }
  destruct (driver_fault w SummaryFind) as [e|]; cbn [option_map].
  { right; right; left. exists st, e. repeat split. }
  right; right; right. exists st. repeat split.
Qed.

(** C4: on a database handle that refuses truth value testing the summary
    raises that refusal at line 105, whether or not a record exists for the
    domain: without a record it is not the 404.  The diagnostics handler,
    which compares the handle with [None], answers in the same world. *)
Theorem summary_truth_test_raises :
  ~ has_integration world_untestable_empty (normalize_domain (lit "acme")) /\
  response (shopify_summary (lit "acme")) world_untestable_empty
  = Raise (NotImplementedError no_truth_value) /\
  response (shopify_summary (lit "acme")) world_untestable
  = Raise (NotImplementedError no_truth_value) /\
  (exists v, response (test_database host_twelve) world_untestable_empty = Ok v).
Proof.
  split; [|split; [|split]].
  - intros [st [d [Hdb [Hin _]]]]. injection Hdb as <-. exact Hin.
  - rewrite summary_run. reflexivity.
  - rewrite summary_run. reflexivity.
  - eexists. vm_compute. reflexivity.
Qed.

(** The summary fails with the 404 and its fixed message exactly when
    the lookup of line 105 comes back empty: no record exists for the
    normalized domain, and either no database is configured or the handle
    passes its truth test and the lookup does not fail.  With a record, no
    HTTP error of any kind is raised. *)
Theorem summary_not_found_iff (w : World) (raw : str) :
  (response (shopify_summary raw) w = Raise (HTTPException 404 not_found_detail)
   <-> ~ has_integration w (normalize_domain raw) /\
       (db w = None \/
        (truth_fault w = None /\ driver_fault w SummaryFind = None))) /\
  (has_integration w (normalize_domain raw) ->
   forall status detail,
     response (shopify_summary raw) w <> Raise (HTTPException status detail)) /\
  not_found_detail = lit "Integration not found. Connect your store first.".
Proof.
  split; [|split; [|reflexivity]].
  - rewrite <- lookup_none_iff.
    destruct (lookup_outcome_cases w (normalize_domain raw))
      as [[Hdb Hl] | [[st [msg [Hdb [Ht Hl]]]] | [[st [e [Hdb [Ht [Hf Hl]]]]]
          | [st [Hdb [Ht [Hf Hl]]]]]]].
    + rewrite summary_run, Hl. unfold lookup_integration. rewrite Hdb.
      split; [intros _; split; [reflexivity|left; reflexivity]|reflexivity].
    + rewrite summary_run, Hl. split; [discriminate|].
      intros [_ [H | [H _]]]; congruence.
    + rewrite summary_run, Hl. split; [destruct e; discriminate|].
      intros [_ [H | [_ H]]]; congruence.
    + split.
      * intros H. split; [|right; split; assumption].
        destruct (lookup_integration w (normalize_domain raw)) as [integ|] eqn:E;
          [|reflexivity].
        exfalso. exact (summary_found_no_http_error w raw Hl H).
      * intros [H _]. rewrite summary_run, Hl, H. reflexivity.
  - intros Hh status detail.
    destruct (lookup_outcome_cases w (normalize_domain raw))
      as [[Hdb Hl] | [[st [msg [Hdb [Ht Hl]]]] | [[st [e [Hdb [Ht [Hf Hl]]]]]
          | [st [Hdb [Ht [Hf Hl]]]]]]].
    + exfalso. destruct Hh as [st [d [Hdb' _]]]. congruence.
    + rewrite summary_run, Hl. discriminate.
    + rewrite summary_run, Hl. destruct e; discriminate.
    + destruct (lookup_integration w (normalize_domain raw)) as [integ|] eqn:E.
      * exact (summary_found_no_http_error w raw Hl).
      * exfalso. apply lookup_none_iff in E. exact (E Hh).
Qed.

(** C5: the response of the summary does not depend on which driver calls of
    the cache write fail, and the guarded block itself never raises, whatever
    the world (a missing database included). *)
Theorem summary_ignores_cache_failure (w : World) (raw : str)
    (faults : snap_op -> option str) :
  response (shopify_summary raw) (set_snapshot_fault w faults)
  = response (shopify_summary raw) (set_snapshot_fault w (fun _ => None)) /\
  (forall (w' : World) (domain : str) (summary : dict),
     response (try_except (cache_snapshot domain summary) (fun _ => ret tt)) w'
     = Ok tt).
Proof.
  split.
  - rewrite !summary_run. reflexivity.
  - intros w' domain summary. unfold response.
    destruct (try_pass_ok (cache_snapshot domain summary) w') as [w'' ->].
    reflexivity.
Qed.

(** *** The demo rule *)








Lemma fetch_error_body (w : World) (k : nat) (domain : str) (token : pyval)
    (path : str) (params : option dict) (msg : str) :
  snd (nth_fetch w k domain token path params) = Some msg ->
  fst (nth_fetch w k domain token path params) = VNone.
Proof.
  unfold nth_fetch, fetch_result.
  destruct (net w (clock w + k) _) as [r|m]; [|reflexivity].
  destruct (status_code r =? 200)%Z; [|reflexivity].
  destruct (json r); [discriminate | reflexivity].
Qed.

Lemma items_aggregable (key : str) (r : pyval * option str) (l : list pyval) :
  (forall msg, snd r = Some msg -> fst r = VNone) ->
  items_of (fst r) key = Ok (VList l) ->
  aggregable key r = true.
Proof.
  destruct r as [body [msg|]]; cbn [fst snd]; intros Hb.
  - rewrite (Hb msg eq_refl). reflexivity.
  - unfold items_of, py_get.
    destruct body; cbn [truthy aggregable]; try (destruct (negb _); [discriminate|reflexivity]).
    + reflexivity.
    + destruct b; [discriminate | reflexivity].
    + destruct entries as [|kv rest]; [reflexivity|]. cbn [is_nil negb].
      destruct (dict_get (kv :: rest) key) as [v|]; [|reflexivity].
      intros H. injection H as ->. reflexivity.
Qed.

(** When line 105 returns a record, the demo rule holds of the summary only
    on such fetch results: each fetch returned an error, or a body that is
    falsy or a JSON object whose entry for the resource, if any, is a list,
    and three errors all came with a text. *)
Theorem demo_rule_needs_fetches (w : World) (raw : str) (integ : document) :
  lookup_outcome w (normalize_domain raw) = Ok (Some integ) ->
  demo_rule w raw integ ->
  aggregable (lit "products") (products_fetch w (normalize_domain raw) integ) = true /\
  aggregable (lit "orders") (orders_fetch w (normalize_domain raw) integ) = true /\
  aggregable (lit "customers") (customers_fetch w (normalize_domain raw) integ) = true /\
  told (products_fetch w (normalize_domain raw) integ)
       (orders_fetch w (normalize_domain raw) integ)
       (customers_fetch w (normalize_domain raw) integ) = true.
Proof.
  intros Hl [demo [lp [lo [lc [Hr [Hiff [Hdemo Hreal]]]]]]].
  rewrite summary_run, Hl in Hr.
  pose proof (@fetch_error_body w 0 (normalize_domain raw) (token_of integ)
                (lit "products.json") products_params) as Bp.
  pose proof (@fetch_error_body w 1 (normalize_domain raw) (token_of integ)
                (lit "orders.json") orders_params) as Bo.
  pose proof (@fetch_error_body w 2 (normalize_domain raw) (token_of integ)
                (lit "customers.json") customers_params) as Bc.
  fold (products_fetch w (normalize_domain raw) integ) in Bp.
  fold (orders_fetch w (normalize_domain raw) integ) in Bo.
  fold (customers_fetch w (normalize_domain raw) integ) in Bc.
  set (rp := products_fetch w (normalize_domain raw) integ) in *.
  set (ro := orders_fetch w (normalize_domain raw) integ) in *.
  set (rc := customers_fetch w (normalize_domain raw) integ) in *.
  unfold summary_value in Hr. cbv zeta in Hr.
  destruct (truthy_opt (snd rp) && truthy_opt (snd ro) && truthy_opt (snd rc)) eqn:D.
  - apply andb_true_iff in D. destruct D as [D Dc].
    apply andb_true_iff in D. destruct D as [Dp Do].
    unfold told, is_error. 
    destruct rp as [bp [mp|]]; [|discriminate Dp].
    destruct ro as [bo [mo|]]; [|discriminate Do].
    destruct rc as [bc [mc|]]; [|discriminate Dc].
    cbn [fst snd] in *. rewrite (Bp mp eq_refl), (Bo mo eq_refl), (Bc mc eq_refl).
    rewrite Dp, Do, Dc. repeat split.
  - destruct (count_of (fst rp) (lit "products")) as [np|]; [|discriminate Hr].
    destruct (count_of (fst ro) (lit "orders")) as [no|]; [|discriminate Hr].
    destruct (count_of (fst rc) (lit "customers")) as [nc|]; [|discriminate Hr].
    destruct (items_of (fst rp) (lit "products")) as [vp|] eqn:Ep; [|discriminate Hr].
    destruct (items_of (fst ro) (lit "orders")) as [vo|] eqn:Eo; [|discriminate Hr].
    destruct (items_of (fst rc) (lit "customers")) as [vc|] eqn:Ec; [|discriminate Hr].
    cbn [rbind] in Hr. unfold summary_dict in Hr.
    injection Hr as Hd _ _ _ Hp Ho Hc. subst vp vo vc demo.
    split; [exact (items_aggregable _ rp Bp Ep)|].
    split; [exact (items_aggregable _ ro Bo Eo)|].
    split; [exact (items_aggregable _ rc Bc Ec)|].
    unfold told.
    destruct (is_error rp && is_error ro && is_error rc) eqn:E; [|reflexivity].
    exfalso. apply andb_true_iff in E. destruct E as [E Ec'].
    apply andb_true_iff in E. destruct E as [Ep' Eo'].
    assert (H : false = true) by (apply Hiff; auto). discriminate H.
Qed.

(** Only the products call succeeds: its body holds a list. *)
Lemma demo_rule_needs_fetches_products_only :
  aggregable (lit "products")
    (products_fetch world_products_only (lit "acme.myshopify.com") acme_record) = true /\
  aggregable (lit "orders")
    (orders_fetch world_products_only (lit "acme.myshopify.com") acme_record) = true /\
  aggregable (lit "customers")
    (customers_fetch world_products_only (lit "acme.myshopify.com") acme_record) = true /\
  told (products_fetch world_products_only (lit "acme.myshopify.com") acme_record)
       (orders_fetch world_products_only (lit "acme.myshopify.com") acme_record)
       (customers_fetch world_products_only (lit "acme.myshopify.com") acme_record)
  = true.
Proof.
  apply (@demo_rule_needs_fetches world_products_only (lit "acme") acme_record eq_refl).
  exists false, [VInt 11; VInt 12; VInt 13], [], [].
  split; [reflexivity|].
  split; [split; [discriminate | intros [H _]; vm_compute in H; discriminate H]|].
  split; [discriminate | intros _; repeat split].
Defined.

(** ** The connect handler *)

(** With a database: what the save raises, or the response and the
    integrations collection left. *)
Lemma connect_run (w : World) (st : Store) (payload : ConnectPayload.t) :
  db w = Some st ->
  let domain := normalize_domain (ConnectPayload.domain payload) in
  let up := upsert_integration (st integrations) domain
              (ConnectPayload.access_token payload) in
  let r := verification w payload in
  match save_error w st domain with
  | Some e => connect_shopify payload w = (Raise e, w)
  | None =>
      exists st',
        db (after (connect_shopify payload) w) = Some st' /\
        match shop_name_of (fst r) with
        | Raise e =>
            response (connect_shopify payload) w = Raise e /\
            st' integrations = fst up
        | Ok name =>
            if truthy name
            then match site_error w ConnectName with
                 | Some e =>
                     response (connect_shopify payload) w = Raise e /\
                     st' integrations = fst up
                 | None =>
                     response (connect_shopify payload) w
                     = Ok (connect_response (snd up) domain
                             (if truthy_opt (snd r) then false else true) name) /\
                     st' integrations = name_update (fst up) domain name
                 end
            else response (connect_shopify payload) w
                 = Ok (connect_response (snd up) domain
                         (if truthy_opt (snd r) then false else true) name) /\
                 st' integrations = fst up
        end
  end.
Proof.
  intros Hdb domain up r.
  destruct w as [d n c f s tf df]. simpl in Hdb. subst d.
  unfold save_error, handle_error, site_error, fault_at.
  cbv beta iota zeta delta [truth_fault driver_fault].
  unfold after, response, connect_shopify, db_bool, find, update_one, db_getitem,
    create_document, driver_call, fault_at.
  cbv beta iota zeta delta [bind ret db set_db truth_fault driver_fault].
  fold domain.
  destruct tf as [msg|]; cbn [option_map]; [reflexivity|].
  destruct (df ConnectFind) as [e|]; cbn [option_map]; [reflexivity|].
  unfold up, upsert_integration, by_domain. fold domain.
  unfold r, verification. fold domain.
  destruct (List.filter _ (st integrations)) as [|e0 rest];
    [destruct (df ConnectInsert) as [e|] | destruct (df ConnectUpdate) as [e|]];
    cbn [option_map]; try reflexivity;
    cbv beta iota zeta delta [db set_db truth_fault driver_fault];
    rewrite shopify_get_run;
    cbv beta iota zeta delta [db set_db truth_fault driver_fault];
    match goal with
    | |- context [nth_fetch ?w0 0 ?a ?b ?cc ?dd] =>
        change (nth_fetch w0 0 a b cc dd)
          with (nth_fetch (mkWorld (Some st) n c f s None df) 0 a b cc dd)
    end;
    destruct (nth_fetch _ 0 _ _ _ _) as [data err]; cbn [fst snd];
    unfold lift; destruct (shop_name_of data) as [name|e]; cbn [fst snd];
    try (eexists; split; [reflexivity | split; reflexivity]);
    destruct (truthy name); cbn [fst snd db tick set_db truth_fault driver_fault];
    try (eexists; split; [reflexivity | split; reflexivity]);
    destruct (df ConnectName) as [e|]; cbn [option_map fst snd];
    eexists; (split; [reflexivity | split; reflexivity]).
Qed.

(** The save goes through when the handle passes its truth test and no
    driver call of the save fails. *)
Lemma ready_save (w : World) (st : Store) (domain : str) :
  connect_ready w -> save_error w st domain = None.
Proof.
  intros [Ht [Hf [Hu Hi]]].
  unfold save_error, handle_error, site_error, fault_at.
  rewrite Ht, Hf, Hu, Hi. simpl. destruct (List.filter _ _); reflexivity.
Qed.

(** Without a database: the response. *)
Lemma connect_run_degraded (w : World) (payload : ConnectPayload.t) :
  db w = None ->
  let domain := normalize_domain (ConnectPayload.domain payload) in
  let r := verification w payload in
  response (connect_shopify payload) w =
  match shop_name_of (fst r) with
  | Raise e => Raise e
  | Ok name =>
      if truthy name
      then Raise (TypeError (lit "'NoneType' object is not subscriptable"))
      else Ok (connect_response (spare_id w) domain
                 (if truthy_opt (snd r) then false else true) name)
  end.
Proof.
  intros Hdb domain r.
  destruct w as [d n c f s tf df]. simpl in Hdb. subst d.
  unfold response, connect_shopify, db_bool, find, update_one, db_getitem,
    create_document, driver_call.
  cbv beta iota zeta delta [bind ret db set_db].
  fold domain. rewrite shopify_get_run.
  unfold r, verification. fold domain.
  destruct (nth_fetch _ 0 _ _ _ _) as [data err]; cbn [fst snd].
  unfold lift; destruct (shop_name_of data) as [name|e]; cbn [fst snd];
    [|reflexivity].
  destruct (truthy name); reflexivity.
Qed.

(** C2, at the failing input: with no database configured and a verification
    that returns the shop's name, connect raises [TypeError] at the update of
    line 97 instead of answering. *)
Theorem connect_without_database_raises :
  db world_no_database = None /\
  verification world_no_database acme_payload
  = (shop_named (VStr (lit "Acme")), None) /\
  response (connect_shopify acme_payload) world_no_database
  = Raise (TypeError (lit "'NoneType' object is not subscriptable")).
Proof. repeat split. Qed.

(** *** Documents and collections *)

Lemma dict_get_set (d : dict) (k k' : str) (v : pyval) :
  dict_get (dict_set d k v) k' = if str_eqb k k' then Some v else dict_get d k'.
Proof.
  induction d as [|[k0 v0] d IH]; simpl; [reflexivity|].
  destruct (str_eqb k0 k) eqn:E; simpl.
  - apply str_eqb_eq in E. subst k0. destruct (str_eqb k k'); reflexivity.
  - rewrite IH. destruct (str_eqb k0 k') eqn:E'; [|reflexivity].
    destruct (str_eqb k k') eqn:E2; [|reflexivity].
    apply str_eqb_eq in E', E2. subst. rewrite str_eqb_refl in E. discriminate.
Qed.

Section Dump.
Variables (domain token : str) (fields : dict).

Let dump := ShopifyIntegration.model_dump
              (ShopifyIntegration.mk domain token None None).

Lemma dump_domain :
  dict_get (dict_update fields dump) (lit "domain") = Some (VStr domain).
Proof.
  unfold dict_update, dump, ShopifyIntegration.model_dump. cbn [fold_left fst snd].
  rewrite !dict_get_set. reflexivity.
Qed.

Lemma dump_token :
  dict_get (dict_update fields dump) (lit "access_token") = Some (VStr token).
Proof.
  unfold dict_update, dump, ShopifyIntegration.model_dump. cbn [fold_left fst snd].
  rewrite !dict_get_set. reflexivity.
Qed.
End Dump.

Lemma store_name_set (fields : dict) (v : pyval) (k : str) :
  dict_get (dict_update fields [(lit "store_name", v)]) k
  = if str_eqb (lit "store_name") k then Some v else dict_get fields k.
Proof. unfold dict_update. cbn [fold_left fst snd]. apply dict_get_set. Qed.

Section UpdateFirst.
Variables (q : query) (fields : dict).

Lemma update_first_ids (c : collection) :
  map doc_id (update_first q fields c) = map doc_id c.
Proof.
  induction c as [|d c IH]; simpl; [reflexivity|].
  destruct (matches q d); simpl; [reflexivity | rewrite IH; reflexivity].
Qed.

Lemma update_first_hit (c : collection) (d : document) :
  In d c -> matches q d = true ->
  exists d0, In d0 c /\ matches q d0 = true /\
             In (updated fields d0) (update_first q fields c).
Proof.
  induction c as [|a c IH]; simpl; [intros []|].
  intros Hin Hm. destruct (matches q a) eqn:Ea.
  - exists a. split; [left; reflexivity|]. split; [exact Ea|]. left. reflexivity.
  - destruct Hin as [->|Hin]; [congruence|].
    destruct (IH Hin Hm) as [d0 [H1 [H2 H3]]].
    exists d0. split; [right; exact H1|]. split; [exact H2|]. right. exact H3.
Qed.

Lemma update_first_keep (c : collection) (d : document) :
  In d c ->
  In d (update_first q fields c) \/
  (matches q d = true /\ In (updated fields d) (update_first q fields c)).
Proof.
  induction c as [|a c IH]; simpl; [intros []|].
  intros [->|Hin].
  - destruct (matches q d) eqn:E.
    + right. split; [reflexivity|]. left. reflexivity.
    + left. left. reflexivity.
  - destruct (matches q a).
    + left. right. exact Hin.
    + destruct (IH Hin) as [H|[H1 H2]]; [left; right; exact H|].
      right. split; [exact H1|]. right. exact H2.
Qed.

Lemma update_first_domains (c : collection) :
  (forall d, In d c -> matches q d = true ->
             domain_of (updated fields d) = domain_of d) ->
  map domain_of (update_first q fields c) = map domain_of c.
Proof.
  induction c as [|a c IH]; simpl; [reflexivity|]. intros H.
  destruct (matches q a) eqn:E; simpl.
  - f_equal. apply H; [left; reflexivity | exact E].
  - f_equal. apply IH. intros d Hd. apply H. right. exact Hd.
Qed.
End UpdateFirst.

Lemma matches_domain_of (x : str) (d : document) :
  matches (by_domain x) d = true <-> domain_of d = Some (VStr x).
Proof. apply matches_field_str. Qed.

Lemma matches_by_domain_of (x : str) (d d' : document) :
  domain_of d = domain_of d' ->
  matches (by_domain x) d = matches (by_domain x) d'.
Proof. unfold matches, by_domain, domain_of. intros ->. reflexivity. Qed.

Lemma records_by_domains (x : str) (c c' : collection) :
  map domain_of c = map domain_of c' ->
  List.length (List.filter (matches (by_domain x)) c)
  = List.length (List.filter (matches (by_domain x)) c').
Proof.
  revert c'. induction c as [|d c IH]; intros [|d' c'] H; try discriminate;
    [reflexivity|].
  simpl in H. injection H as Hd Hc. cbn [List.filter].
  rewrite (matches_by_domain_of x d d' Hd).
  destruct (matches (by_domain x) d'); cbn [List.length];
    rewrite (IH c' Hc); reflexivity.
Qed.

Lemma NoDup_map_eq {A B : Type} (f : A -> B) (l : list A) (a b : A) :
  NoDup (map f l) -> In a l -> In b l -> f a = f b -> a = b.
Proof.
  induction l as [|x l IH]; simpl; [intros _ []|].
  intros Hn Ha Hb E. inversion Hn as [|y ys Hx Hn']; subst.
  destruct Ha as [->|Ha], Hb as [->|Hb]; try reflexivity.
  - exfalso. apply Hx. rewrite E. apply in_map. exact Hb.
  - exfalso. apply Hx. rewrite <- E. apply in_map. exact Ha.
  - apply IH; assumption.
Qed.

Lemma NoDup_snoc {A : Type} (l : list A) (a : A) :
  NoDup l -> ~ In a l -> NoDup (l ++ [a]).
Proof.
  induction l as [|x l IH]; simpl; intros Hn Ha.
  - constructor; [intros []|constructor].
  - inversion Hn as [|y ys Hx Hn']; subst. constructor.
    + intros Hi. apply in_app_or in Hi. destruct Hi as [Hi|[->|[]]]; [exact (Hx Hi)|].
      apply Ha. left. reflexivity.
    + apply IH; [exact Hn'|]. intros Hi. apply Ha. right. exact Hi.
Qed.

Lemma fresh_oid_above (c : collection) (d : document) :
  In d c -> (doc_id d < fresh_oid c)%N.
Proof.
  unfold fresh_oid. induction c as [|a c IH]; simpl; [intros []|].
  intros [->|Hin]; [lia|]. specialize (IH Hin). lia.
Qed.

Lemma fresh_oid_new (c : collection) : ~ In (fresh_oid c) (map doc_id c).
Proof.
  intros H. apply in_map_iff in H. destruct H as [d [E Hin]].
  apply fresh_oid_above in Hin. lia.
Qed.

Lemma filter_single {A : Type} (f : A -> bool) (l : list A) (a : A) :
  (List.length (List.filter f l) <= 1)%nat -> In a l -> f a = true ->
  List.filter f l = [a].
Proof.
  intros Hl Hin Hf.
  assert (Hi : In a (List.filter f l)) by (apply filter_In; split; assumption).
  destruct (List.filter f l) as [|x [|y t]]; simpl in *.
  - destruct Hi.
  - destruct Hi as [->|[]]. reflexivity.
  - lia.
Qed.

(** *** The save step and the name update on the collection *)

Section Upsert.
Variables (c : collection) (domain token : str).

Let dump := ShopifyIntegration.model_dump
              (ShopifyIntegration.mk domain token None None).

Lemma upsert_holds : holds (fst (upsert_integration c domain token)) domain token.
Proof.
  unfold upsert_integration. fold dump.
  destruct (List.filter (matches (by_domain domain)) c) as [|e0 rest] eqn:E;
    cbn [fst].
  - exists (mkDocument (fresh_oid c) dump).
    split; [apply in_or_app; right; left; reflexivity|].
    split; reflexivity.
  - assert (He : In e0 c /\ matches (by_domain domain) e0 = true).
    { apply filter_In. rewrite E. left. reflexivity. }
    destruct He as [Hin _].
    destruct (update_first_hit (ById (doc_id e0)) dump c e0 Hin
                (N.eqb_refl _)) as [d0 [_ [_ H]]].
    exists (updated dump d0). split; [exact H|].
    split; [apply dump_domain | apply dump_token].
Qed.

Hypothesis ids_unique : NoDup (map doc_id c).
Hypothesis domains_unique :
  forall x, (List.length (List.filter (matches (by_domain x)) c) <= 1)%nat.

Lemma upsert_ids : NoDup (map doc_id (fst (upsert_integration c domain token))).
Proof.
  unfold upsert_integration. fold dump.
  destruct (List.filter (matches (by_domain domain)) c) as [|e0 rest];
    cbn [fst].
  - rewrite map_app. apply NoDup_snoc; [exact ids_unique | apply fresh_oid_new].
  - rewrite update_first_ids. exact ids_unique.
Qed.

Lemma upsert_domains (x : str) :
  (List.length (List.filter (matches (by_domain x))
                  (fst (upsert_integration c domain token))) <= 1)%nat.
Proof.
  unfold upsert_integration. fold dump.
  destruct (List.filter (matches (by_domain domain)) c) as [|e0 rest] eqn:E;
    cbn [fst].
  - rewrite filter_app, length_app. cbn [List.filter].
    destruct (matches (by_domain x) (mkDocument (fresh_oid c) dump)) eqn:Em.
    + apply matches_domain_of in Em.
      assert (Ex : x = domain) by (cbv in Em; congruence).
      subst x. rewrite E. simpl. lia.
    + specialize (domains_unique x). simpl. lia.
  - assert (He : In e0 c /\ matches (by_domain domain) e0 = true).
    { apply filter_In. rewrite E. left. reflexivity. }
    destruct He as [Hin Hm].
    rewrite (records_by_domains x _ c); [apply domains_unique|].
    apply update_first_domains. intros d Hd Hq.
    assert (d = e0).
    { apply (NoDup_map_eq doc_id c); try assumption.
      apply N.eqb_eq. exact Hq. }
    subst d. unfold domain_of at 1, updated, dump. cbn [doc_fields].
    rewrite dump_domain. symmetry. apply matches_domain_of. exact Hm.
Qed.
End Upsert.

Section NameUpdate.
Variables (c : collection) (domain : str) (name : pyval).

Lemma name_update_domain_of (d : document) :
  domain_of (updated [(lit "store_name", name)] d) = domain_of d.
Proof. unfold domain_of, updated. cbn [doc_fields]. apply store_name_set. Qed.

Lemma name_update_ids : map doc_id (name_update c domain name) = map doc_id c.
Proof. apply update_first_ids. Qed.

Lemma name_update_domains : map domain_of (name_update c domain name) = map domain_of c.
Proof.
  apply update_first_domains. intros d _ _. apply name_update_domain_of.
Qed.

Lemma name_update_holds (token : str) :
  holds c domain token -> holds (name_update c domain name) domain token.
Proof.
  intros [d [Hin [Hd Ht]]].
  destruct (update_first_keep (by_domain domain) [(lit "store_name", name)] c d Hin)
    as [H|[_ H]].
  - exists d. auto.
  - exists (updated [(lit "store_name", name)] d). split; [exact H|]. split.
    + rewrite name_update_domain_of. exact Hd.
    + unfold updated. cbn [doc_fields]. rewrite store_name_set. exact Ht.
Qed.

End NameUpdate.

(** *** One record per domain *)

Lemma connect_saved (w : World) (st : Store) (payload : ConnectPayload.t) :
  db w = Some st ->
  let domain := normalize_domain (ConnectPayload.domain payload) in
  let up := upsert_integration (st integrations) domain
              (ConnectPayload.access_token payload) in
  save_error w st domain = None ->
  exists st',
    db (after (connect_shopify payload) w) = Some st' /\
    (st' integrations = fst up \/
     exists name, st' integrations = name_update (fst up) domain name).
Proof.
  intros Hdb domain up Hs.
  pose proof (connect_run w payload Hdb) as H. cbv zeta in H. fold domain in H.
  rewrite Hs in H. destruct H as [st' [Hdb' H]].
  exists st'. split; [exact Hdb'|].
  destruct (shop_name_of _) as [name|e]; [|left; apply H].
  destruct (truthy name); [|left; apply H].
  destruct (site_error w ConnectName); [left; apply H|right; exists name; apply H].
Qed.

(** A connect that raises before it saves leaves the world as it was. *)
Lemma connect_unsaved (w : World) (st : Store) (payload : ConnectPayload.t) (e : exn) :
  db w = Some st ->
  save_error w st (normalize_domain (ConnectPayload.domain payload)) = Some e ->
  connect_shopify payload w = (Raise e, w).
Proof.
  intros Hdb Hs. pose proof (connect_run w payload Hdb) as H. cbv zeta in H.
  rewrite Hs in H. exact H.
Qed.

Lemma connect_store (w : World) (st : Store) (payload : ConnectPayload.t) :
  db w = Some st ->
  let domain := normalize_domain (ConnectPayload.domain payload) in
  let up := upsert_integration (st integrations) domain
              (ConnectPayload.access_token payload) in
  exists st',
    db (after (connect_shopify payload) w) = Some st' /\
    (st' integrations = st integrations \/
     st' integrations = fst up \/
     exists name, st' integrations = name_update (fst up) domain name).
Proof.
  intros Hdb domain up.
  destruct (save_error w st domain) as [e|] eqn:Hs.
  - exists st. unfold after. rewrite (connect_unsaved w payload Hdb Hs).
    split; [exact Hdb | left; reflexivity].
  - destruct (connect_saved w payload Hdb Hs) as [st' [Hdb' H]].
    exists st'. split; [exact Hdb' | right; exact H].
Qed.

Section SavedStore.
Variables (c : collection) (domain token : str).
Hypothesis ids_unique : NoDup (map doc_id c).
Hypothesis domains_unique :
  forall x, (List.length (List.filter (matches (by_domain x)) c) <= 1)%nat.

Let c1 := fst (upsert_integration c domain token).

(** The collection after the save, with or without the name written. *)
Lemma saved_ok (c' : collection) :
  c' = c1 \/ (exists name, c' = name_update c1 domain name) ->
  NoDup (map doc_id c') /\
  (forall x, (List.length (List.filter (matches (by_domain x)) c') <= 1)%nat) /\
  holds c' domain token.
Proof.
  assert (H1 : NoDup (map doc_id c1)) by (apply upsert_ids; assumption).
  assert (H2 : forall x,
             (List.length (List.filter (matches (by_domain x)) c1) <= 1)%nat)
    by (intros x; apply upsert_domains; assumption).
  assert (H3 : holds c1 domain token) by apply upsert_holds.
  intros [-> | [name ->]].
  - repeat split; assumption.
  - repeat split.
    + rewrite name_update_ids. exact H1.
    + intros x. rewrite (records_by_domains x _ c1); [apply H2|].
      apply name_update_domains.
    + apply name_update_holds. exact H3.
Qed.
End SavedStore.

Lemma connect_keeps_store_ok (w : World) (st : Store) (payload : ConnectPayload.t) :
  db w = Some st -> store_ok st ->
  exists st', db (after (connect_shopify payload) w) = Some st' /\ store_ok st'.
Proof.
  intros Hdb [Hids Hdoms]. unfold records_for in Hdoms.
  destruct (connect_store w payload Hdb) as [st' [Hdb' Hc]].
  exists st'. split; [exact Hdb'|]. unfold store_ok, records_for.
  destruct Hc as [-> | Hc]; [split; assumption|].
  destruct (@saved_ok (st integrations)
              (normalize_domain (ConnectPayload.domain payload))
              (ConnectPayload.access_token payload) Hids Hdoms _ Hc) as [A [B _]].
  split; assumption.
Qed.

Lemma connect_once (w : World) (st : Store) (payload : ConnectPayload.t) :
  db w = Some st -> store_ok st ->
  save_error w st (normalize_domain (ConnectPayload.domain payload)) = None ->
  exists st' d,
    db (after (connect_shopify payload) w) = Some st' /\ store_ok st' /\
    records_for st' (normalize_domain (ConnectPayload.domain payload)) = [d] /\
    dict_get (doc_fields d) (lit "access_token")
    = Some (VStr (ConnectPayload.access_token payload)).
Proof.
  intros Hdb [Hids Hdoms] Hs. unfold records_for in Hdoms.
  destruct (connect_saved w payload Hdb Hs) as [st' [Hdb' Hc]].
  destruct (@saved_ok (st integrations)
              (normalize_domain (ConnectPayload.domain payload))
              (ConnectPayload.access_token payload) Hids Hdoms _ Hc)
    as [A [B [d [Hin [Hd Ht]]]]].
  exists st', d. repeat split; try assumption.
  unfold records_for. apply filter_single.
  - apply B.
  - exact Hin.
  - apply matches_domain_of. exact Hd.
Qed.

(** C7: on a database handle that refuses truth value testing, connect
    raises that refusal at line 84 before it looks anything up: two connects
    for the same domain leave no record at all, where the claim has exactly
    one.  The diagnostics handler, which compares the handle with [None],
    answers in the same world. *)
Theorem connect_truth_test_raises :
  let p2 := ConnectPayload.mk (lit "acme") (lit "shpat_3") in
  let w1 := after (connect_shopify acme_payload) world_untestable_empty in
  let w2 := after (connect_shopify p2) w1 in
  response (connect_shopify acme_payload) world_untestable_empty
  = Raise (NotImplementedError no_truth_value) /\
  response (connect_shopify p2) w1 = Raise (NotImplementedError no_truth_value) /\
  (exists st2,
     db w2 = Some st2 /\ records_for st2 (lit "acme.myshopify.com") = []) /\
  (exists v, response (test_database host_twelve) world_untestable_empty = Ok v).
Proof.
  cbv zeta.
  assert (E : forall p, connect_shopify p world_untestable_empty
                        = (Raise (NotImplementedError no_truth_value),
                           world_untestable_empty)).
  { intros p. apply (@connect_unsaved world_untestable_empty empty_store p).
    - reflexivity.
    - reflexivity. }
  unfold after, response. rewrite !E. cbn [fst snd]. rewrite ?E. cbn [fst snd].
  repeat split.
  - exists empty_store. split; reflexivity.
  - eexists. vm_compute. reflexivity.
Qed.

(** *** The verification rule *)





(** The contract at work: a 401 answer. *)
Lemma shopify_get_contract_unauthorized :
  response (shopify_get (lit "acme.myshopify.com") (VStr (lit "shpat_2"))
              (lit "shop.json") None) world_unauthorized
  = Ok (VNone, Some (lit "HTTP 401: Unauthorized")).
Proof.
  refine (proj1 (proj2 (@shopify_get_contract (lit "acme.myshopify.com")
                          (VStr (lit "shpat_2")) (lit "shop.json") None
                          world_unauthorized))
            (mkResponse 401 (lit "Unauthorized") (Malformed (lit "no JSON")))
            eq_refl _).
  discriminate.
Defined.

(** ** The store across requests *)

Lemma store_ok_integrations (st st' : Store) :
  st' integrations = st integrations -> store_ok st -> store_ok st'.
Proof. unfold store_ok, records_for. intros ->. exact (fun H => H). Qed.

Lemma try_pass_world (m : M unit) (w : World) :
  snd (try_except m (fun _ => ret tt) w) = snd (m w).
Proof. unfold try_except, ret. destruct (m w) as [[[]|e] w']; reflexivity. Qed.

Lemma cache_keeps_integrations (w : World) (st : Store) (domain : str)
    (summary : dict) :
  db w = Some st ->
  exists st', db (snd (cache_snapshot domain summary w)) = Some st' /\
              st' integrations = st integrations.
Proof.
  intros Hdb. destruct w as [d n c f s tf df]. simpl in Hdb. subst d.
  unfold cache_snapshot, find_one, update_one, create_document, db_getitem,
    driver_call, fault_at.
  cbv beta iota zeta delta [bind ret db set_db snapshot_fault].
  destruct (f SnapFind); cbn [option_map]; cbv beta iota;
    [eexists; split; reflexivity|].
  destruct (List.find _ (st snapshots)); cbv beta iota.
  - destruct (f SnapUpdate); cbn [option_map]; cbv beta iota;
      eexists; split; reflexivity.
  - destruct (f SnapCreate); cbn [option_map]; cbv beta iota;
      eexists; split; reflexivity.
Qed.

Lemma summary_store (w : World) (st : Store) (raw : str) :
  db w = Some st ->
  exists st', db (after (shopify_summary raw) w) = Some st' /\
              st' integrations = st integrations.
Proof.
  intros Hdb. destruct w as [d n c f s tf df]. simpl in Hdb. subst d.
  unfold after, shopify_summary, db_bool, find_one, db_getitem, driver_call, fault_at.
  cbv beta iota zeta delta [bind ret db truth_fault driver_fault].
  destruct tf as [msg|]; [exists st; split; reflexivity|].
  destruct (df SummaryFind) as [e|]; cbn [option_map]; cbv beta iota;
    [exists st; split; reflexivity|].
  destruct (List.find _ (st integrations)) as [integ|];
    [|exists st; split; reflexivity].
  rewrite shopify_get_run. destruct (nth_fetch _ 0 _ _ _ _) as [products p_err].
  rewrite shopify_get_run. destruct (nth_fetch _ 0 _ _ _ _) as [orders o_err].
  rewrite shopify_get_run. destruct (nth_fetch _ 0 _ _ _ _) as [customers c_err].
  unfold lift.
  repeat match goal with
  | |- context [match ?r with Ok _ => _ | Raise _ => _ end] =>
      match type of r with
      | result _ => destruct r; [|exists st; split; reflexivity]
      end
  end.
  match goal with
  | |- context [try_except ?m ?h ?w0] =>
      pose proof (try_pass_world m w0) as Hw; unfold ret in Hw;
      destruct (try_except m h w0) as [[[]|e] w'] eqn:E; cbn [snd] in Hw |- *;
      rewrite Hw; apply cache_keeps_integrations; reflexivity
  end.
Qed.

Lemma step_keeps_store (w w' : World) (st : Store) :
  step w w' -> db w = Some st -> store_ok st ->
  exists st', db w' = Some st' /\ store_ok st'.
Proof.
  intros [payload w0 | raw w0 | faults w0 | faults w0] Hdb Hok.
  - exact (connect_keeps_store_ok w0 payload Hdb Hok).
  - destruct (summary_store w0 raw Hdb) as [st' [Hdb' Hi]].
    exists st'. split; [exact Hdb'|]. exact (@store_ok_integrations st st' Hi Hok).
  - exists st. auto.
  - exists st. auto.
Qed.

(** Across any sequence of connect and summary requests served from a
    database with unique identifiers and at most one integration record per
    domain, the database keeps both properties. *)
Theorem store_ok_reachable (w0 w : World) (st0 : Store) :
  db w0 = Some st0 -> store_ok st0 -> reachable w0 w ->
  exists st, db w = Some st /\ store_ok st.
Proof.
  intros Hdb Hok Hr. induction Hr as [|w w' _ [st [Hdb' Hok']] Hs].
  - exists st0. auto.
  - exact (step_keeps_store Hs Hdb' Hok').
Qed.

(** A connect, a reconnect and a summary from an empty database. *)
Lemma store_ok_after_three_requests :
  exists st,
    db (after (shopify_summary (lit "acme"))
          (after (connect_shopify (ConnectPayload.mk (lit "acme") (lit "shpat_3")))
             (after (connect_shopify acme_payload) world_verified))) = Some st /\
    store_ok st.
Proof.
  apply (@store_ok_reachable world_verified _ empty_store eq_refl).
  - split; [constructor | intros x; simpl; lia].
  - apply reach_step
      with (w := after (connect_shopify (ConnectPayload.mk (lit "acme") (lit "shpat_3")))
                   (after (connect_shopify acme_payload) world_verified));
      [|apply step_summary].
    apply reach_step with (w := after (connect_shopify acme_payload) world_verified);
      [|apply step_connect].
    apply reach_step with (w := world_verified); [apply reach_start | apply step_connect].
Defined.

(** Every normalized domain ends with [.myshopify.com] and holds no slash. *)
Theorem normalize_domain_canonical (x : str) :
  endswith (normalize_domain x) myshopify_suffix = true /\
  ~ In slash (normalize_domain x).
Proof.
  destruct (normalize_shape x) as [z [E Hz]]. rewrite E. split.
  - apply endswith_spec. exists z. reflexivity.
  - intros H. apply in_app_or in H. destruct H as [H|H];
      [exact (Hz H) | exact (suffix_no_slash H)].
Qed.

(** Without a database connect still answers, with the identifier the
    persistence layer hands out, whenever the verification yields no truthy
    shop name. *)
Theorem connect_degraded_mode (w : World) (payload : ConnectPayload.t) (name : pyval) :
  db w = None ->
  shop_name_of (fst (verification w payload)) = Ok name ->
  truthy name = false ->
  response (connect_shopify payload) w
  = Ok (connect_response (spare_id w)
          (normalize_domain (ConnectPayload.domain payload))
          (if truthy_opt (snd (verification w payload)) then false else true) name).
Proof.
  intros Hdb Hn Ht. rewrite connect_run_degraded by exact Hdb.
  rewrite Hn, Ht. reflexivity.
Qed.

Lemma connect_degraded_mode_timeout :
  response (connect_shopify acme_payload) world_no_database_timeout
  = Ok (connect_response (lit "tmp") (lit "acme.myshopify.com") false VNone).
Proof.
  apply (@connect_degraded_mode world_no_database_timeout acme_payload VNone);
    reflexivity.
Defined.

(** ** Where the normalizer strips prefixes only *)

Lemma occurs_head (s pat : str) : occurs s pat = false -> startswith s pat = false.
Proof.
  destruct s as [|c s]; simpl; [exact (fun H => H)|].
  intros H. apply orb_false_iff in H. exact (proj1 H).
Qed.

Lemma replace_not_occurring (x : char) (pat new s : str) :
  occurs s (x :: pat) = false -> replace s (x :: pat) new = s.
Proof.
  unfold replace. induction s as [|c s IH]; [reflexivity|].
  intros H. pose proof (occurs_head _ _ H) as Hh.
  cbn [occurs] in H. apply orb_false_iff in H. destruct H as [_ H].
  rewrite replace_from_keep by exact Hh. rewrite (IH H). reflexivity.
Qed.

Lemma removeprefix_not_occurring (s pat : str) :
  occurs s pat = false -> removeprefix s pat = s.
Proof. intros H. unfold removeprefix. rewrite (occurs_head _ _ H). reflexivity. Qed.

Lemma removeprefix_app (pat s : str) : removeprefix (pat ++ s) pat = s.
Proof.
  unfold removeprefix. rewrite startswith_app, skipn_app, skipn_all, Nat.sub_diag.
  reflexivity.
Qed.

Lemma replace_app_hit (x : char) (pat s : str) :
  replace ((x :: pat) ++ s) (x :: pat) [] = replace s (x :: pat) [].
Proof. unfold replace. apply replace_from_hit. Qed.

(** On an input without surrounding whitespace whose only scheme, if any, is
    its prefix, [normalize_domain] is the prefix-stripping normalizer. *)
Theorem normalize_domain_prefix_case (scheme rest : str) :
  scheme = [] \/ scheme = lit "http://" \/ scheme = lit "https://" ->
  strip (scheme ++ rest) = scheme ++ rest ->
  occurs rest (lit "http://") = false ->
  occurs rest (lit "https://") = false ->
  normalize_domain (scheme ++ rest) = normalize_as_stated (scheme ++ rest).
Proof.
  intros Hs Hstrip H1 H2. unfold normalize_domain, normalize_as_stated.
  rewrite Hstrip.
  change (lit "http://") with (@cons char 104%N (lit "ttp://")) in *.
  change (lit "https://") with (@cons char 104%N (lit "ttps://")) in *.
  set (h := 104%N : char) in *.
  assert (E : replace (replace (scheme ++ rest) (h :: lit "ttp://") [])
                (h :: lit "ttps://") []
              = removeprefix (removeprefix (scheme ++ rest) (h :: lit "ttp://"))
                  (h :: lit "ttps://")).
  { destruct Hs as [-> | [-> | ->]].
    - cbn [app].
      rewrite (@replace_not_occurring _ _ [] _ H1),
        (@replace_not_occurring _ _ [] _ H2).
      rewrite (@removeprefix_not_occurring _ _ H1),
        (@removeprefix_not_occurring _ _ H2).
      reflexivity.
    - rewrite removeprefix_app, replace_app_hit.
      rewrite (@replace_not_occurring _ _ [] _ H1),
        (@replace_not_occurring _ _ [] _ H2).
      rewrite (@removeprefix_not_occurring _ _ H2). reflexivity.
    - assert (H3 : occurs ((h :: lit "ttps://") ++ rest) (h :: lit "ttp://") = false).
      { subst h. cbn. cbn in H1. exact H1. }
      rewrite (@replace_not_occurring _ _ [] _ H3).
      rewrite (@removeprefix_not_occurring _ _ H3), removeprefix_app.
      rewrite replace_app_hit.
      apply (@replace_not_occurring _ _ [] _ H2). }
  rewrite E. reflexivity.
Qed.

Lemma normalize_domain_prefix_case_acme :
  normalize_domain (lit "https://acme.myshopify.com/admin")
  = normalize_as_stated (lit "https://acme.myshopify.com/admin").
Proof.
  apply (@normalize_domain_prefix_case (lit "https://")
           (lit "acme.myshopify.com/admin")); try reflexivity.
  right. right. reflexivity.
Defined.

(** ** Upstream calls and what a request leaves alone *)

Lemma connect_frame (w : World) (st : Store) (payload : ConnectPayload.t) :
  db w = Some st ->
  exists st',
    db (after (connect_shopify payload) w) = Some st' /\
    same_host w (after (connect_shopify payload) w)
      (match save_error w st (normalize_domain (ConnectPayload.domain payload)) with
       | Some _ => 0
       | None => 1
       end) /\
    forall name, str_eqb name integrations = false -> st' name = st name.
Proof.
  intros Hdb.
  destruct (save_error w st (normalize_domain (ConnectPayload.domain payload)))
    as [e|] eqn:Hs.
  { exists st. unfold after. rewrite (connect_unsaved w payload Hdb Hs).
    split; [exact Hdb|]. split; [repeat split | reflexivity]. }
  destruct w as [d n c f s tf df]. simpl in Hdb. subst d.
  revert Hs. unfold save_error, handle_error, site_error, fault_at, by_domain.
  cbv beta iota zeta delta [truth_fault driver_fault].
  unfold after, connect_shopify, db_bool, find, update_one, db_getitem,
    create_document, driver_call, fault_at, same_host.
  cbv beta iota zeta delta [bind ret db set_db truth_fault driver_fault].
  destruct tf as [msg|]; cbn [option_map]; [discriminate|].
  destruct (df ConnectFind) as [e|]; cbn [option_map]; [discriminate|].
  destruct (List.filter _ (st integrations)) as [|e0 rest];
    [destruct (df ConnectInsert) as [e|] | destruct (df ConnectUpdate) as [e|]];
    cbn [option_map]; try discriminate; intros _;
    cbv beta iota zeta delta [db set_db truth_fault driver_fault];
    rewrite shopify_get_run;
    destruct (nth_fetch _ 0 _ _ _ _) as [data err];
    unfold lift; destruct (shop_name_of data) as [name|e];
    cbv beta iota zeta delta [db set_db tick truth_fault driver_fault];
    try destruct (truthy name);
    cbv beta iota zeta delta [db set_db tick truth_fault driver_fault];
    try destruct (df ConnectName) as [e'|]; cbn [option_map];
    cbv beta iota zeta delta
      [db set_db tick snd net clock snapshot_fault spare_id truth_fault driver_fault];
    eexists; (split; [reflexivity|]);
    (split; [repeat split|]);
    intros name' Hn; unfold set_collection; rewrite ?Hn; reflexivity.
Qed.

Lemma connect_frame_degraded (w : World) (payload : ConnectPayload.t) :
  db w = None -> after (connect_shopify payload) w = tick w.
Proof.
  intros Hdb. destruct w as [d n c f s tf df]. simpl in Hdb. subst d.
  unfold after, connect_shopify, db_bool, find, update_one, db_getitem,
    create_document, driver_call.
  cbv beta iota zeta delta [bind ret db set_db].
  rewrite shopify_get_run.
  destruct (nth_fetch _ 0 _ _ _ _) as [data err].
  unfold lift; destruct (shop_name_of data) as [name|e]; [|reflexivity].
  destruct (truthy name); reflexivity.
Qed.

Lemma cache_frame (w : World) (st : Store) (domain : str) (summary : dict) :
  db w = Some st ->
  exists st',
    db (snd (cache_snapshot domain summary w)) = Some st' /\
    same_host w (snd (cache_snapshot domain summary w)) 0 /\
    (forall name, str_eqb name snapshots = false -> st' name = st name) /\
    (snapshot_fault w SnapFind <> None \/
     (snapshot_fault w SnapUpdate <> None /\ snapshot_fault w SnapCreate <> None) ->
     st' snapshots = st snapshots) /\
    ((forall op, snapshot_fault w op = None) ->
     st' snapshots = upsert_snapshot (st snapshots) domain summary).
Proof.
  intros Hdb. destruct w as [d n c f s tf df]. simpl in Hdb. subst d.
  unfold cache_snapshot, find_one, update_one, create_document, db_getitem,
    driver_call, fault_at, same_host, upsert_snapshot.
  cbv beta iota zeta delta [bind ret db set_db snapshot_fault].
  destruct (f SnapFind) as [m1|] eqn:E1; cbn [option_map]; cbv beta iota.
  - exists st. cbn. repeat split; try reflexivity.
    intros H. specialize (H SnapFind). congruence.
  - destruct (List.find _ (st snapshots)) as [e|]; cbv beta iota.
    + destruct (f SnapUpdate) as [m2|] eqn:E2; cbn [option_map]; cbv beta iota.
      * exists st. cbn. repeat split; try reflexivity.
        intros H. specialize (H SnapUpdate). congruence.
      * eexists. cbn. split; [reflexivity|]. repeat split.
        -- intros name Hn. unfold set_collection. rewrite Hn. reflexivity.
        -- intros [H|[H _]]; congruence.
    + destruct (f SnapCreate) as [m3|] eqn:E3; cbn [option_map]; cbv beta iota.
      * exists st. cbn. repeat split; try reflexivity.
        intros H. specialize (H SnapCreate). congruence.
      * eexists. cbn. split; [reflexivity|]. repeat split.
        -- intros name Hn. unfold set_collection. rewrite Hn. reflexivity.
        -- intros [H|[_ H]]; congruence.
Qed.

Lemma same_host_tick (w : World) : same_host w (tick w) 1.
Proof. repeat split. Qed.

(** With a record found, the world a summary leaves is the world its cache
    write leaves after the three fetches; otherwise it is the world the
    summary started from. *)
Lemma summary_after (w : World) (raw : str) :
  match lookup_outcome w (normalize_domain raw) with
  | Raise _ | Ok None => after (shopify_summary raw) w = w
  | Ok (Some integ) =>
      match summary_value (products_fetch w (normalize_domain raw) integ)
              (orders_fetch w (normalize_domain raw) integ)
              (customers_fetch w (normalize_domain raw) integ) with
      | Ok s =>
          after (shopify_summary raw) w
          = snd (cache_snapshot (normalize_domain raw) s (tick (tick (tick w))))
      | Raise _ => after (shopify_summary raw) w = tick (tick (tick w))
      end
  end.
Proof.
  unfold after, shopify_summary, lookup_outcome, handle_error, site_error,
    db_bool, find_one, db_getitem, driver_call.
  cbv [bind]. destruct (db w) as [st|] eqn:Hdb; [|reflexivity].
  destruct (truth_fault w) as [msg|]; [reflexivity|]. cbn [option_map].
  rewrite Hdb. cbv [ret].
  destruct (fault_at w (HandlerCall SummaryFind)) as [e|]; [reflexivity|].
  destruct (List.find _ (st integrations)) as [integ|]; [|reflexivity].
  rewrite shopify_get_run.
  unfold products_fetch, orders_fetch, customers_fetch.
  destruct (nth_fetch w 0 _ _ _ _) as [products p_err].
  rewrite shopify_get_run, nth_fetch_tick.
  destruct (nth_fetch w 1 _ _ _ _) as [orders o_err].
  rewrite shopify_get_run, !nth_fetch_tick.
  destruct (nth_fetch w 2 _ _ _ _) as [customers c_err].
  unfold summary_value, lift. cbv [fst snd].
  destruct (count_of _ (lit "products")); [|reflexivity].
  destruct (count_of _ (lit "orders")); [|reflexivity].
  destruct (count_of _ (lit "customers")); [|reflexivity].
  destruct (items_of _ (lit "products")); [|reflexivity].
  destruct (items_of _ (lit "orders")); [|reflexivity].
  destruct (items_of _ (lit "customers")); [|reflexivity].
  cbv [rbind]. cbv beta.
  match goal with
  | |- context [try_except ?m ?h ?w0] =>
      pose proof (try_pass_world m w0) as Hw; unfold ret in Hw;
      destruct (try_except m h w0) as [[[]|e] w'] eqn:E; cbn [snd] in Hw |- *;
      exact Hw
  end.
Qed.

(** Connect issues exactly one upstream request, with or without a
    database and however the verification goes, unless lines 84-90 raise
    before they save (the handle refuses its truth test, or the lookup or
    the write fails): then it issues none.  A summary issues exactly three
    when line 105 returns a record, however the fetches and the cache write
    go, and none when it ends in the 404 or line 105 raises.  Neither changes
    anything else of the host. *)
Theorem upstream_calls_per_request (w : World) :
  (forall payload,
     same_host w (after (connect_shopify payload) w)
       (match db w with
        | Some st =>
            match save_error w st (normalize_domain (ConnectPayload.domain payload)) with
            | Some _ => 0
            | None => 1
            end
        | None => 1
        end)) /\
  (forall raw,
     same_host w (after (shopify_summary raw) w)
       (match lookup_outcome w (normalize_domain raw) with
        | Ok (Some _) => 3
        | _ => 0
        end)).
Proof.
  split.
  - intros payload. destruct (db w) as [st|] eqn:Hdb.
    + destruct (connect_frame w payload Hdb) as [st' [_ [H _]]]. exact H.
    + rewrite (connect_frame_degraded w payload Hdb). apply same_host_tick.
  - intros raw. pose proof (summary_after w raw) as H.
    destruct (lookup_outcome w (normalize_domain raw)) as [[integ|]|e] eqn:Hl.
    + assert (Ht : same_host w (tick (tick (tick w))) 3) by (repeat split).
      destruct (summary_value _ _ _) as [s|e]; rewrite H; [|exact Ht].
      assert (Hdb : exists st, db (tick (tick (tick w))) = Some st).
      { apply lookup_outcome_some in Hl. unfold lookup_integration in Hl.
        cbn [db tick]. destruct (db w) as [st|]; [eauto | discriminate]. }
      destruct Hdb as [st Hdb].
      destruct (@cache_frame _ st (normalize_domain raw) s Hdb)
        as [st' [_ [[H1 [H2 [H3 [H4 [H5 H6]]]]] _]]].
      unfold same_host. rewrite H1, H2, H3, H4, H5, H6. repeat split.
    + rewrite H. repeat split.
    + rewrite H. repeat split.
Qed.

(** ** The summary object *)

Lemma count_of_items_of (body : pyval) (key : str) (n : Z) (items : pyval) :
  count_of body key = Ok n -> items_of body key = Ok items -> py_len items = Ok n.
Proof.
  unfold count_of, items_of. destruct (truthy body).
  - destruct (py_get body key (VList [])) as [v|e]; [|discriminate].
    intros Hn Hi. injection Hi as <-. exact Hn.
  - intros Hn Hi. injection Hn as <-. injection Hi as <-. reflexivity.
Qed.

(** Whenever the summary answers, its object has the five entries [demo],
    [counts], [products], [orders], [customers], and each count is the length
    of the value returned under the same name -- also when an upstream body
    holds something other than a list there. *)
Theorem summary_counts_are_lengths (w : World) (raw : str) (v : pyval) :
  response (shopify_summary raw) w = Ok v ->
  exists demo n_products n_orders n_customers l_products l_orders l_customers,
    v = VDict [(lit "demo", VBool demo);
               (lit "counts", VDict [(lit "products", VInt n_products);
                                     (lit "orders", VInt n_orders);
                                     (lit "customers", VInt n_customers)]);
               (lit "products", l_products);
               (lit "orders", l_orders);
               (lit "customers", l_customers)] /\
    py_len l_products = Ok n_products /\
    py_len l_orders = Ok n_orders /\
    py_len l_customers = Ok n_customers.
Proof.
  rewrite summary_run.
  destruct (lookup_outcome w (normalize_domain raw)) as [[integ|]|e];
    [|discriminate|discriminate].
  unfold summary_value. cbv zeta.
  set (demo := truthy_opt _ && truthy_opt _ && truthy_opt _).
  destruct (count_of _ (lit "products")) as [np|] eqn:E1; [|discriminate].
  destruct (count_of _ (lit "orders")) as [no|] eqn:E2; [|discriminate].
  destruct (count_of _ (lit "customers")) as [nc|] eqn:E3; [|discriminate].
  destruct (items_of _ (lit "products")) as [lp|] eqn:E4; [|discriminate].
  destruct (items_of _ (lit "orders")) as [lo|] eqn:E5; [|discriminate].
  destruct (items_of _ (lit "customers")) as [lc|] eqn:E6; [|discriminate].
  cbv [rbind]. intros H. injection H as <-.
  exists demo, np, no, nc, lp, lo, lc. split; [reflexivity|].
  repeat split; eapply count_of_items_of; eassumption.
Qed.

(** A body whose [products] entry is a string: the count is its length. *)
Lemma summary_counts_are_lengths_of_string :
  exists demo n_products n_orders n_customers l_products l_orders l_customers,
    VDict [(lit "demo", VBool false);
           (lit "counts", VDict [(lit "products", VInt 3);
                                 (lit "orders", VInt 0);
                                 (lit "customers", VInt 0)]);
           (lit "products", VStr (lit "abc"));
           (lit "orders", VList []);
           (lit "customers", VList [])]
    = VDict [(lit "demo", VBool demo);
             (lit "counts", VDict [(lit "products", VInt n_products);
                                   (lit "orders", VInt n_orders);
                                   (lit "customers", VInt n_customers)]);
             (lit "products", l_products);
             (lit "orders", l_orders);
             (lit "customers", l_customers)] /\
    py_len l_products = Ok n_products /\
    py_len l_orders = Ok n_orders /\
    py_len l_customers = Ok n_customers.
Proof.
  apply (@summary_counts_are_lengths
           (mkWorld (Some acme_store)
              (answers (VDict [(lit "products", VStr (lit "abc"))])) 0 no_faults
              (lit "tmp") None quiet)
           (lit "acme")).
  reflexivity.
Defined.

(** ** The snapshot cache *)

Section SnapshotSave.
Variables (c : collection) (domain : str) (summary : dict).

Let snap := DataSnapshot.model_dump (DataSnapshot.mk domain summary).

Lemma snap_domain (fields : dict) :
dict_get (dict_update fields snap) (lit "domain") = Some (VStr domain).
Proof.
unfold dict_update, snap, DataSnapshot.model_dump. cbn [fold_left fst snd].
rewrite !dict_get_set. reflexivity.
Qed.

Lemma snap_data (fields : dict) :
dict_get (dict_update fields snap) (lit "data") = Some (VDict summary).
Proof.
unfold dict_update, snap, DataSnapshot.model_dump. cbn [fold_left fst snd].
rewrite !dict_get_set. reflexivity.
Qed.

Lemma upsert_snapshot_holds :
exists d, In d (upsert_snapshot c domain summary) /\
          domain_of d = Some (VStr domain) /\
          dict_get (doc_fields d) (lit "data") = Some (VDict summary).
Proof.
unfold upsert_snapshot. fold snap.
destruct (List.find (matches (by_domain domain)) c) as [e|] eqn:E.
- apply find_some in E. destruct E as [Hin _].
  destruct (update_first_hit (ById (doc_id e)) snap c e Hin (N.eqb_refl _))
    as [d0 [_ [_ H]]].
  exists (updated snap d0). split; [exact H|].
  split; [apply snap_domain | apply snap_data].
- exists (mkDocument (fresh_oid c) snap).
  split; [apply in_or_app; right; left; reflexivity|].
  split; reflexivity.
Qed.

Hypothesis ids_unique : NoDup (map doc_id c).
Hypothesis domains_unique :
forall x, (List.length (List.filter (matches (by_domain x)) c) <= 1)%nat.

Lemma upsert_snapshot_ids : NoDup (map doc_id (upsert_snapshot c domain summary)).
Proof.
unfold upsert_snapshot. fold snap.
destruct (List.find (matches (by_domain domain)) c) as [e|].
- rewrite update_first_ids. exact ids_unique.
- rewrite map_app. apply NoDup_snoc; [exact ids_unique | apply fresh_oid_new].
Qed.

Lemma upsert_snapshot_domains (x : str) :
(List.length (List.filter (matches (by_domain x))
                (upsert_snapshot c domain summary)) <= 1)%nat.
Proof.
unfold upsert_snapshot. fold snap.
destruct (List.find (matches (by_domain domain)) c) as [e|] eqn:E.
- apply find_some in E. destruct E as [Hin Hm].
  rewrite (records_by_domains x _ c); [apply domains_unique|].
  apply update_first_domains. intros d Hd Hq.
  assert (d = e).
  { apply (NoDup_map_eq doc_id c); try assumption.
    apply N.eqb_eq. exact Hq. }
  subst d. unfold domain_of at 1, updated, snap. cbn [doc_fields].
  rewrite snap_domain. symmetry. apply matches_domain_of. exact Hm.
- rewrite filter_app, length_app. cbn [List.filter].
  destruct (matches (by_domain x) (mkDocument (fresh_oid c) snap)) eqn:Em.
  + apply matches_domain_of in Em.
    assert (Ex : x = domain) by (cbv in Em; congruence).
    subst x.
    assert (Hnone : List.filter (matches (by_domain domain)) c = []).
    { destruct (List.filter (matches (by_domain domain)) c) as [|a l] eqn:Ef;
        [reflexivity|].
      assert (Ha : In a c /\ matches (by_domain domain) a = true).
      { apply filter_In. rewrite Ef. left. reflexivity. }
      destruct Ha as [Ha1 Ha2]. rewrite (find_none _ _ E a Ha1) in Ha2.
      discriminate. }
    rewrite Hnone. simpl. lia.
  + specialize (domains_unique x). simpl. lia.
Qed.
End SnapshotSave.

(** When no driver call fails, a summary that answers leaves its answer in
    the cache: exactly one snapshot is stored for the normalized domain, its
    [data] is the object returned, and the snapshots stay one per domain. *)
Theorem summary_caches_its_answer (w : World) (st : Store) (raw : str)
    (summary : dict) :
  db w = Some st -> snapshots_ok st ->
  (forall op, snapshot_fault w op = None) ->
  response (shopify_summary raw) w = Ok (VDict summary) ->
  exists st' d,
    db (after (shopify_summary raw) w) = Some st' /\ snapshots_ok st' /\
    snapshots_for st' (normalize_domain raw) = [d] /\
    dict_get (doc_fields d) (lit "data") = Some (VDict summary).
Proof.
  intros Hdb [Hids Hdoms] Hf Hr. unfold snapshots_for in Hdoms.
  rewrite summary_run in Hr. pose proof (summary_after w raw) as Ha.
  destruct (lookup_outcome w (normalize_domain raw)) as [[integ|]|e0];
    [|discriminate|discriminate].
  destruct (summary_value _ _ _) as [s|e]; [|discriminate].
  cbn [rbind] in Hr. injection Hr as ->. rewrite Ha.
  assert (Hdb3 : db (tick (tick (tick w))) = Some st) by exact Hdb.
  destruct (@cache_frame _ st (normalize_domain raw) summary Hdb3)
    as [st' [Hdb' [_ [_ [_ Hup]]]]].
  specialize (Hup Hf).
  destruct (upsert_snapshot_holds (st snapshots) (normalize_domain raw) summary)
    as [d [Hin [Hd Hdata]]].
  assert (Hok : snapshots_ok st').
  { unfold snapshots_ok, snapshots_for. rewrite Hup. split.
    - apply upsert_snapshot_ids. exact Hids.
    - intros x. apply upsert_snapshot_domains; assumption. }
  exists st', d. split; [exact Hdb'|]. split; [exact Hok|]. split; [|exact Hdata].
  unfold snapshots_for. apply filter_single.
  - apply Hok.
  - rewrite Hup. exact Hin.
  - apply matches_domain_of. exact Hd.
Qed.

(** Two summaries of one store: the cache holds the second answer only. *)
Lemma summary_caches_its_answer_twice :
  exists st' d,
    db (after (shopify_summary (lit "acme"))
          (after (shopify_summary (lit "acme")) world_products_only)) = Some st' /\
    snapshots_ok st' /\
    snapshots_for st' (lit "acme.myshopify.com") = [d] /\
    dict_get (doc_fields d) (lit "data")
    = Some (VDict (summary_dict false [VInt 11; VInt 12; VInt 13] [] [])).
Proof.
  refine (@summary_caches_its_answer
            (after (shopify_summary (lit "acme")) world_products_only)
            _ (lit "acme") _ eq_refl _ _ eq_refl).
  - split; [vm_compute; constructor; [intros []|constructor]|].
    intros x. unfold snapshots_for.
    eapply Nat.le_trans; [apply filter_length_le|]. vm_compute. constructor.
  - intros op. reflexivity.
Defined.

(** When the driver call the cache write reaches fails, the summary leaves
    the cache as it was; the integration records are never written by a
    summary. *)
Theorem summary_failed_cache_write (w : World) (st : Store) (raw : str) :
  db w = Some st ->
  exists st',
    db (after (shopify_summary raw) w) = Some st' /\
    st' integrations = st integrations /\
    (snapshot_fault w SnapFind <> None \/
     (snapshot_fault w SnapUpdate <> None /\ snapshot_fault w SnapCreate <> None) ->
     st' snapshots = st snapshots).
Proof.
  intros Hdb. pose proof (summary_after w raw) as Ha.
  assert (Hdb3 : db (tick (tick (tick w))) = Some st) by exact Hdb.
  destruct (lookup_outcome w (normalize_domain raw)) as [[integ|]|e0].
  - destruct (summary_value _ _ _) as [s|e]; rewrite Ha.
    + destruct (@cache_frame _ st (normalize_domain raw) s Hdb3)
        as [st' [Hdb' [_ [Hn [Hfail _]]]]].
      exists st'. split; [exact Hdb'|]. split; [apply Hn; reflexivity|].
      exact Hfail.
    + exists st. auto.
  - rewrite Ha. exists st. auto.
  - rewrite Ha. exists st. auto.
Qed.

Lemma summary_failed_cache_write_unreachable :
  exists st',
    db (after (shopify_summary (lit "acme"))
          (set_snapshot_fault world_products_only
             (fun _ => Some (lit "server gone")))) = Some st' /\
    st' integrations = acme_store integrations /\
    st' snapshots = acme_store snapshots.
Proof.
  destruct (@summary_failed_cache_write
              (set_snapshot_fault world_products_only
                 (fun _ => Some (lit "server gone")))
              acme_store (lit "acme") eq_refl) as [st' [H1 [H2 H3]]].
  exists st'. split; [exact H1|]. split; [exact H2|].
  apply H3. left. discriminate.
Defined.

(** ** Connect, then what is stored *)

Lemma find_filter_single {A : Type} (f : A -> bool) (l : list A) (a : A) :
  List.filter f l = [a] -> List.find f l = Some a.
Proof.
  induction l as [|x l IH]; simpl; [discriminate|].
  destruct (f x); [|exact IH]. intros H. injection H as -> _. reflexivity.
Qed.

Lemma store_ok_two_stores : store_ok two_stores.
Proof.
  split.
  - vm_compute. repeat constructor; simpl; intuition discriminate.
  - intros x. unfold records_for.
    change (two_stores integrations) with [acme_named_record; other_record].
    cbn [List.filter].
    destruct (matches (by_domain x) acme_named_record) eqn:E1;
      destruct (matches (by_domain x) other_record) eqn:E2; simpl; try lia.
    apply matches_domain_of in E1, E2. cbv in E1, E2. congruence.
Qed.

(** After a connect served with a database whose save at lines 84-90 went
    through, a summary for the same store finds the record the connect
    saved: the record stored for the domain carries the token of that
    connect, line 105 returns it unless its own lookup fails, and the summary
    does not end in the 404. *)
Theorem connect_then_summary (w : World) (st : Store) (payload : ConnectPayload.t) :
  let domain := normalize_domain (ConnectPayload.domain payload) in
  let w' := after (connect_shopify payload) w in
  db w = Some st -> store_ok st -> save_error w st domain = None ->
  exists d,
    lookup_integration w' domain = Some d /\
    token_of d = VStr (ConnectPayload.access_token payload) /\
    (driver_fault w SummaryFind = None -> lookup_outcome w' domain = Ok (Some d)) /\
    forall raw, normalize_domain raw = domain ->
      response (shopify_summary raw) w'
      <> Raise (HTTPException 404 not_found_detail).
Proof.
  intros domain w' Hdb Hok Hs.
  destruct (connect_once w payload Hdb Hok Hs) as [st' [d [Hdb' [_ [Hr Ht]]]]].
  assert (Hl : lookup_integration w' domain = Some d).
  { unfold lookup_integration, w'. rewrite Hdb'.
    apply find_filter_single. exact Hr. }
  destruct (connect_frame w payload Hdb) as [st'' [_ [[_ [_ [_ [_ [Htf Hdf]]]]] _]]].
  fold w' in Htf, Hdf.
  assert (Htruth : truth_fault w' = None).
  { rewrite Htf. unfold save_error, handle_error in Hs.
    destruct (truth_fault w); [discriminate Hs | reflexivity]. }
  exists d. split; [exact Hl|]. split; [unfold token_of; rewrite Ht; reflexivity|].
  split.
  - intros Hf. rewrite <- Hl. apply lookup_found; [exact Htruth|].
    rewrite Hdf. exact Hf.
  - intros raw Hraw. rewrite summary_run, Hraw.
    destruct (lookup_outcome_cases w' domain)
      as [[Hn _] | [[st1 [msg [_ [Hm _]]]] | [[st1 [e [_ [_ [_ Hl']]]]]
          | [st1 [_ [_ [_ Hl']]]]]]].
    + unfold w' in Hn. congruence.
    + congruence.
    + rewrite Hl'. destruct e; discriminate.
    + rewrite Hl', Hl.
      destruct (summary_value _ _ _) as [s|e] eqn:E; simpl; [discriminate|].
      apply summary_value_raise in E. destruct E as [msg [-> | ->]]; discriminate.
Qed.

Lemma connect_then_summary_acme :
  exists d,
    lookup_integration (after (connect_shopify acme_payload) world_two_stores)
      (lit "acme.myshopify.com") = Some d /\
    token_of d = VStr (lit "shpat_2") /\
    (driver_fault world_two_stores SummaryFind = None ->
     lookup_outcome (after (connect_shopify acme_payload) world_two_stores)
       (lit "acme.myshopify.com") = Ok (Some d)) /\
    forall raw, normalize_domain raw = lit "acme.myshopify.com" ->
      response (shopify_summary raw)
        (after (connect_shopify acme_payload) world_two_stores)
      <> Raise (HTTPException 404 not_found_detail).
Proof.
  exact (@connect_then_summary world_two_stores two_stores acme_payload
           eq_refl store_ok_two_stores eq_refl).
Defined.

(** *** The identifier returned *)

Lemma upsert_holds_id (c : collection) (domain token : str) :
  exists d,
    In d (fst (upsert_integration c domain token)) /\
    domain_of d = Some (VStr domain) /\
    oid_str (doc_id d) = snd (upsert_integration c domain token).
Proof.
  unfold upsert_integration.
  destruct (List.filter (matches (by_domain domain)) c) as [|e0 rest] eqn:E;
    cbn [fst snd].
  - eexists. split; [apply in_or_app; right; left; reflexivity|].
    split; reflexivity.
  - assert (He : In e0 c /\ matches (by_domain domain) e0 = true).
    { apply filter_In. rewrite E. left. reflexivity. }
    destruct He as [Hin _].
    destruct (update_first_hit (ById (doc_id e0))
                (ShopifyIntegration.model_dump
                   (ShopifyIntegration.mk domain token None None))
                c e0 Hin (N.eqb_refl _)) as [d0 [_ [Hm H]]].
    eexists. split; [exact H|]. split; [apply dump_domain|].
    cbn [updated doc_id]. apply N.eqb_eq in Hm. cbn in Hm. rewrite Hm. reflexivity.
Qed.

Lemma name_update_holds_id (c : collection) (domain : str) (name : pyval) (id : str) :
  (exists d, In d c /\ domain_of d = Some (VStr domain) /\ oid_str (doc_id d) = id) ->
  exists d, In d (name_update c domain name) /\
            domain_of d = Some (VStr domain) /\ oid_str (doc_id d) = id.
Proof.
  intros [d [Hin [Hd Hi]]].
  destruct (update_first_keep (by_domain domain) [(lit "store_name", name)] c d Hin)
    as [H|[_ H]].
  - exists d. auto.
  - exists (updated [(lit "store_name", name)] d). split; [exact H|].
    split; [rewrite name_update_domain_of; exact Hd | exact Hi].
Qed.

(** What a connect that answers has done. *)
Lemma connect_answer (w : World) (st : Store) (payload : ConnectPayload.t)
    (v : pyval) :
  db w = Some st ->
  response (connect_shopify payload) w = Ok v ->
  let domain := normalize_domain (ConnectPayload.domain payload) in
  let up := upsert_integration (st integrations) domain
              (ConnectPayload.access_token payload) in
  save_error w st domain = None /\
  exists st' verified name,
    db (after (connect_shopify payload) w) = Some st' /\
    v = connect_response (snd up) domain verified name /\
    (st' integrations = fst up \/ st' integrations = name_update (fst up) domain name).
Proof.
  intros Hdb Hv domain up.
  pose proof (connect_run w payload Hdb) as H. cbv zeta in H. fold domain up in H.
  destruct (save_error w st domain) as [e|].
  { unfold response in Hv. rewrite H in Hv. discriminate Hv. }
  split; [reflexivity|]. destruct H as [st' [Hdb' H]].
  destruct (shop_name_of _) as [name|e];
    [|destruct H as [H _]; rewrite H in Hv; discriminate Hv].
  destruct (truthy name).
  - destruct (site_error w ConnectName);
      destruct H as [H Hs]; rewrite H in Hv; [discriminate Hv|].
    injection Hv as <-. exists st'. eexists. exists name. auto.
  - destruct H as [H Hs]; rewrite H in Hv. injection Hv as <-.
    exists st'. eexists. exists name. auto.
Qed.

Lemma connect_record_id (w : World) (st : Store) (payload : ConnectPayload.t)
    (v : pyval) :
  db w = Some st -> store_ok st ->
  response (connect_shopify payload) w = Ok v ->
  exists st' d,
    db (after (connect_shopify payload) w) = Some st' /\
    records_for st' (normalize_domain (ConnectPayload.domain payload)) = [d] /\
    response_id v = Some (VStr (oid_str (doc_id d))).
Proof.
  intros Hdb Hok Hv.
  destruct (connect_answer w payload Hdb Hv) as [Hs [st'' [vf [name [Hdb'' [-> Hst]]]]]].
  destruct (connect_once w payload Hdb Hok Hs) as [st' [d [Hdb' [Hok' [Hr _]]]]].
  rewrite Hdb' in Hdb''. injection Hdb'' as <-.
  set (domain := normalize_domain (ConnectPayload.domain payload)) in *.
  set (token := ConnectPayload.access_token payload) in *.
  pose proof (upsert_holds_id (st integrations) domain token) as Hid.
  assert (Hd : exists d', In d' (st' integrations) /\
                          domain_of d' = Some (VStr domain) /\
                          oid_str (doc_id d')
                          = snd (upsert_integration (st integrations) domain token)).
  { destruct Hst as [-> | ->]; [|apply name_update_holds_id]; exact Hid. }
  destruct Hd as [d' [Hin [Hdom Hoid]]].
  assert (Hd' : In d' (records_for st' domain)).
  { apply filter_In. split; [exact Hin|]. apply matches_domain_of. exact Hdom. }
  rewrite Hr in Hd'. destruct Hd' as [<-|[]].
  exists st', d. split; [exact Hdb'|]. split; [exact Hr|].
  rewrite Hoid. reflexivity.
Qed.

(** The identifier a connect returns is the [_id] of the store's record, and a
    later connect for the same domain returns the same identifier. *)
Theorem connect_id_stable (w : World) (st : Store) (p1 p2 : ConnectPayload.t)
    (v1 v2 : pyval) :
  db w = Some st -> store_ok st ->
  ConnectPayload.domain p2 = ConnectPayload.domain p1 ->
  response (connect_shopify p1) w = Ok v1 ->
  response (connect_shopify p2) (after (connect_shopify p1) w) = Ok v2 ->
  response_id v2 = response_id v1 /\
  exists st' d,
    db (after (connect_shopify p1) w) = Some st' /\
    records_for st' (normalize_domain (ConnectPayload.domain p1)) = [d] /\
    response_id v1 = Some (VStr (oid_str (doc_id d))).
Proof.
  intros Hdb Hok Hsame H1 H2.
  destruct (connect_record_id w p1 Hdb Hok H1) as [st1 [d1 [Hdb1 [Hr1 Hid1]]]].
  split; [|exists st1, d1; auto].
  destruct (connect_answer (after (connect_shopify p1) w) p2 Hdb1 H2)
    as [_ [st2 [vf [name [_ [-> _]]]]]].
  rewrite Hsame. unfold upsert_integration.
  unfold records_for in Hr1. rewrite Hr1. cbn [fst snd].
  rewrite Hid1. reflexivity.
Qed.

Lemma connect_id_stable_acme :
  response_id (connect_response (oid_str 1) (lit "acme.myshopify.com") true
                 (VStr (lit "Acme")))
  = response_id (connect_response (oid_str 1) (lit "acme.myshopify.com") true
                   (VStr (lit "Acme"))) /\
  exists st' d,
    db (after (connect_shopify acme_payload) world_verified) = Some st' /\
    records_for st' (lit "acme.myshopify.com") = [d] /\
    response_id (connect_response (oid_str 1) (lit "acme.myshopify.com") true
                   (VStr (lit "Acme")))
    = Some (VStr (oid_str (doc_id d))).
Proof.
  refine (@connect_id_stable world_verified empty_store acme_payload
            (ConnectPayload.mk (lit "acme") (lit "shpat_3")) _ _
            eq_refl _ eq_refl eq_refl eq_refl).
  split; [constructor | intros x; simpl; lia].
Defined.

(** *** What a reconnect overwrites, and what it leaves alone *)

Lemma dump_store_name (domain token : str) (fields : dict) :
  dict_get (dict_update fields
              (ShopifyIntegration.model_dump
                 (ShopifyIntegration.mk domain token None None)))
    (lit "store_name") = Some VNone /\
  dict_get (dict_update fields
              (ShopifyIntegration.model_dump
                 (ShopifyIntegration.mk domain token None None)))
    (lit "scopes") = Some VNone.
Proof.
  unfold dict_update, ShopifyIntegration.model_dump. cbn [fold_left fst snd].
  rewrite !dict_get_set. split; reflexivity.
Qed.

Lemma upsert_blank_name (c : collection) (domain token : str) :
  exists d,
    In d (fst (upsert_integration c domain token)) /\
    domain_of d = Some (VStr domain) /\
    dict_get (doc_fields d) (lit "store_name") = Some VNone /\
    dict_get (doc_fields d) (lit "scopes") = Some VNone.
Proof.
  unfold upsert_integration.
  destruct (List.filter (matches (by_domain domain)) c) as [|e0 rest] eqn:E;
    cbn [fst].
  - eexists. split; [apply in_or_app; right; left; reflexivity|].
    repeat split.
  - assert (He : In e0 c /\ matches (by_domain domain) e0 = true).
    { apply filter_In. rewrite E. left. reflexivity. }
    destruct He as [Hin _].
    destruct (update_first_hit (ById (doc_id e0))
                (ShopifyIntegration.model_dump
                   (ShopifyIntegration.mk domain token None None))
                c e0 Hin (N.eqb_refl _)) as [d0 [_ [_ H]]].
    eexists. split; [exact H|]. split; [apply dump_domain|].
    apply dump_store_name.
Qed.

(** A connect whose save at lines 84-90 goes through and that brings back
    no truthy shop name -- the verification failed, or its body names no
    shop -- leaves the store's record with [store_name] and [scopes] null,
    whatever the record held before. *)
Theorem connect_resets_store_name (w : World) (st : Store)
    (payload : ConnectPayload.t) (name : pyval) :
  db w = Some st -> store_ok st ->
  save_error w st (normalize_domain (ConnectPayload.domain payload)) = None ->
  shop_name_of (fst (verification w payload)) = Ok name ->
  truthy name = false ->
  exists st' d,
    db (after (connect_shopify payload) w) = Some st' /\
    records_for st' (normalize_domain (ConnectPayload.domain payload)) = [d] /\
    dict_get (doc_fields d) (lit "store_name") = Some VNone /\
    dict_get (doc_fields d) (lit "scopes") = Some VNone.
Proof.
  intros Hdb Hok Hsave Hn Ht.
  destruct (connect_once w payload Hdb Hok Hsave) as [st' [d [Hdb' [_ [Hr _]]]]].
  pose proof (connect_run w payload Hdb) as H. cbv zeta in H.
  rewrite Hsave in H. destruct H as [st'' [Hdb'' H]].
  rewrite Hdb' in Hdb''. injection Hdb'' as <-.
  rewrite Hn, Ht in H. destruct H as [_ Hs].
  set (domain := normalize_domain (ConnectPayload.domain payload)) in *.
  destruct (upsert_blank_name (st integrations) domain
              (ConnectPayload.access_token payload))
    as [d' [Hin [Hdom [H1 H2]]]].
  assert (Hd' : In d' (records_for st' domain)).
  { apply filter_In. rewrite Hs. split; [exact Hin|].
    apply matches_domain_of. exact Hdom. }
  rewrite Hr in Hd'. destruct Hd' as [<-|[]].
  exists st', d. auto.
Qed.

(** The stored name [Acme] is gone after a reconnect answered 401. *)
Lemma connect_resets_store_name_acme :
  exists st' d,
    db (after (connect_shopify acme_payload) world_two_stores) = Some st' /\
    records_for st' (lit "acme.myshopify.com") = [d] /\
    dict_get (doc_fields d) (lit "store_name") = Some VNone /\
    dict_get (doc_fields d) (lit "scopes") = Some VNone.
Proof.
  exact (@connect_resets_store_name world_two_stores two_stores acme_payload VNone
           eq_refl store_ok_two_stores eq_refl eq_refl eq_refl).
Defined.

Lemma filter_update_first (f : document -> bool) (q : query) (fields : dict)
    (c : collection) :
  (forall d, In d c -> matches q d = true ->
             f d = false /\ f (updated fields d) = false) ->
  List.filter f (update_first q fields c) = List.filter f c.
Proof.
  induction c as [|a c IH]; [reflexivity|]. intros H. cbn [update_first].
  destruct (matches q a) eqn:E.
  - destruct (H a (or_introl eq_refl) E) as [H1 H2].
    cbn [List.filter]. fold (updated fields a). rewrite H1, H2. reflexivity.
  - cbn [List.filter]. rewrite IH; [reflexivity|].
    intros d Hd. apply H. right. exact Hd.
Qed.

Lemma other_domain_no_match (domain other : str) (d : document) :
  domain_of d = Some (VStr domain) -> other <> domain ->
  matches (by_domain other) d = false.
Proof.
  intros Hd Hne. destruct (matches (by_domain other) d) eqn:E; [|reflexivity].
  apply matches_domain_of in E. congruence.
Qed.

Lemma upsert_other_domains (c : collection) (domain token other : str) :
  NoDup (map doc_id c) -> other <> domain ->
  List.filter (matches (by_domain other)) (fst (upsert_integration c domain token))
  = List.filter (matches (by_domain other)) c.
Proof.
  intros Hids Hne. unfold upsert_integration.
  destruct (List.filter (matches (by_domain domain)) c) as [|e0 rest] eqn:E;
    cbn [fst].
  - rewrite filter_app. cbn [List.filter].
    rewrite (@other_domain_no_match domain other); [apply app_nil_r | reflexivity | exact Hne].
  - assert (He : In e0 c /\ matches (by_domain domain) e0 = true).
    { apply filter_In. rewrite E. left. reflexivity. }
    destruct He as [Hin Hm].
    apply filter_update_first. intros d Hd Hq.
    assert (d = e0).
    { apply (NoDup_map_eq doc_id c); try assumption.
      apply N.eqb_eq. exact Hq. }
    subst d. split; apply (@other_domain_no_match domain other); try exact Hne.
    + apply matches_domain_of. exact Hm.
    + apply dump_domain.
Qed.

Lemma name_update_other_domains (c : collection) (domain other : str) (name : pyval) :
  other <> domain ->
  List.filter (matches (by_domain other)) (name_update c domain name)
  = List.filter (matches (by_domain other)) c.
Proof.
  intros Hne. apply filter_update_first. intros d _ Hm.
  apply matches_domain_of in Hm.
  split; apply (@other_domain_no_match domain other); try exact Hne; [exact Hm|].
  rewrite name_update_domain_of. exact Hm.
Qed.

(** A connect touches the record of its own domain only: the records stored
    for every other domain, and every other collection (the snapshot cache
    included), are left exactly as they were. *)
Theorem connect_leaves_other_stores (w : World) (st : Store)
    (payload : ConnectPayload.t) :
  db w = Some st -> store_ok st ->
  exists st',
    db (after (connect_shopify payload) w) = Some st' /\
    (forall other,
       other <> normalize_domain (ConnectPayload.domain payload) ->
       records_for st' other = records_for st other) /\
    (forall name, str_eqb name integrations = false -> st' name = st name).
Proof.
  intros Hdb [Hids _].
  destruct (connect_frame w payload Hdb) as [st' [Hdb' [_ Hframe]]].
  destruct (connect_store w payload Hdb) as [st'' [Hdb'' Hc]].
  rewrite Hdb' in Hdb''. injection Hdb'' as <-.
  exists st'. split; [exact Hdb'|]. split; [|exact Hframe].
  intros other Hne. unfold records_for.
  destruct Hc as [-> | [-> | [name ->]]].
  - reflexivity.
  - apply upsert_other_domains; assumption.
  - rewrite name_update_other_domains by exact Hne.
    apply upsert_other_domains; assumption.
Qed.

(** A reconnect of [acme] leaves the record of [other] as it was. *)
Lemma connect_leaves_other_stores_acme :
  exists st',
    db (after (connect_shopify acme_payload) world_two_stores) = Some st' /\
    records_for st' (lit "other.myshopify.com") = [other_record] /\
    st' snapshots = [].
Proof.
  destruct (@connect_leaves_other_stores world_two_stores two_stores acme_payload
              eq_refl store_ok_two_stores) as [st' [H1 [H2 H3]]].
  exists st'. split; [exact H1|]. split.
  - rewrite H2; [reflexivity|]. vm_compute. discriminate.
  - rewrite H3; reflexivity.
Defined.

(** ** Diagnostics *)

(** The diagnostics handler never raises and never writes: whatever the
    environment and whatever the probe of the database does, it returns a
    report of six entries in which the backend is running, at most ten
    collection names are listed -- the first ten of the driver's listing --
    and a failure of the listing is reported as at most sixty characters of
    its text, with no collection listed.  Without a database the report
    says so and gives the URL and the name as not set, whatever the
    environment holds. *)
Theorem test_database_report (host : Host) (w : World) :
  exists database url name status names,
    test_database host w
    = (Ok (VDict [(lit "backend", VStr (check_mark ++ lit " Running"));
                  (lit "database", VStr database);
                  (lit "database_url", VStr url);
                  (lit "database_name", VStr name);
                  (lit "connection_status", VStr status);
                  (lit "collections", VList (map VStr names))]), w) /\
    (List.length names <= 10)%nat /\
    (forall listed,
       db w <> None -> list_collection_names host = Ok listed ->
       names = firstn 10 listed /\
       database = check_mark ++ lit " Connected & Working") /\
    (forall e,
       db w <> None -> list_collection_names host = Raise e ->
       names = [] /\
       exists detail,
         database = warning_sign ++ lit " Connected but Error: " ++ detail /\
         detail = firstn 60 (exn_str e) /\ (List.length detail <= 60)%nat) /\
    (db w = None ->
       database = warning_sign ++ lit " Available but not initialized" /\
       url = cross_mark ++ lit " Not Set" /\ name = cross_mark ++ lit " Not Set" /\
       status = lit "Not Connected" /\ names = []).
Proof.
  destruct w as [d n c f s]. unfold test_database, get_db, try_except, bind, ret, lift.
  cbn [db]. destruct d as [st|].
  - destruct (list_collection_names host) as [listed|e].
    + do 4 eexists. exists (firstn 10 listed).
      split; [reflexivity|]. split; [apply firstn_le_length|].
      split; [|split; [intros e _ H; discriminate H | discriminate]].
      intros l _ H. injection H as <-. split; reflexivity.
    + do 4 eexists. exists [].
      split; [reflexivity|]. split; [simpl; lia|].
      split; [intros l _ H; discriminate H|]. split; [|discriminate].
      intros e' _ H. injection H as <-. split; [reflexivity|].
      eexists. split; [reflexivity|]. split; [reflexivity|].
      apply firstn_le_length.
  - do 4 eexists. exists [].
    split; [reflexivity|]. split; [simpl; lia|].
    split; [intros l H; exfalso; apply H; reflexivity|].
    split; [intros e H; exfalso; apply H; reflexivity|].
    intros _. repeat split.
Qed.

(** Twelve collections: ten are reported. *)
Lemma test_database_report_twelve :
  response (test_database host_twelve) world_verified
  = Ok (VDict [(lit "backend", VStr (check_mark ++ lit " Running"));
               (lit "database", VStr (check_mark ++ lit " Connected & Working"));
               (lit "database_url", VStr (check_mark ++ lit " Set"));
               (lit "database_name", VStr (lit "shop"));
               (lit "connection_status", VStr (lit "Connected"));
               (lit "collections",
                VList (map (fun n => VStr (lit "c" ++ decimal (Z.of_nat n)))
                         (seq 0 10)))]).
Proof.
  destruct (test_database_report host_twelve world_verified)
    as [database [url [name [status [names [H [_ [Hok _]]]]]]]].
  destruct (Hok _ ltac:(discriminate) eq_refl) as [-> ->].
  unfold response. rewrite H. vm_compute in H. injection H as <- <- <-.
  reflexivity.
Defined.

(** Without a database the variables are reported as not set although set. *)
Example test_database_without_database_env_set :
  getenv host_twelve (lit "DATABASE_URL") = Some (lit "mongodb://db") /\
  response (test_database host_twelve) world_no_database
  = Ok (VDict [(lit "backend", VStr (check_mark ++ lit " Running"));
               (lit "database",
                VStr (warning_sign ++ lit " Available but not initialized"));
               (lit "database_url", VStr (cross_mark ++ lit " Not Set"));
               (lit "database_name", VStr (cross_mark ++ lit " Not Set"));
               (lit "connection_status", VStr (lit "Not Connected"));
               (lit "collections", VList [])]).
Proof. split; reflexivity. Qed.

Example test_database_listing_fails :
  response (test_database host_unreachable) world_verified
  = Ok (VDict [(lit "backend", VStr (check_mark ++ lit " Running"));
               (lit "database",
                VStr (warning_sign
                        ++ lit " Connected but Error: server selection timed out"));
               (lit "database_url", VStr (check_mark ++ lit " Set"));
               (lit "database_name", VStr (lit "shop"));
               (lit "connection_status", VStr (lit "Connected"));
               (lit "collections", VList [])]).
Proof. reflexivity. Qed.

(** ** Upstream answers with an HTTP error status *)

Lemma truthy_http_error (r : Response) : truthy_opt (Some (http_error r)) = true.
Proof. reflexivity. Qed.

Lemma fetch_result_http_error (r : Response) :
  status_code r <> 200%Z -> fetch_result (Responded r) = (VNone, Some (http_error r)).
Proof.
  intros H. unfold fetch_result. apply Z.eqb_neq in H. rewrite H. reflexivity.
Qed.

(** When line 105 returns a record and each of the three calls is answered
    with a status other than 200, the summary is the demo payload: the
    handler answers, with [demo] true and the fixed lists, whatever the
    statuses and the bodies are. *)
Theorem summary_demo_on_http_errors (w : World) (raw : str) (integ : document) :
  lookup_outcome w (normalize_domain raw) = Ok (Some integ) ->
  (forall k req, (k < 3)%nat ->
     exists r, net w (clock w + k) req = Responded r /\ status_code r <> 200%Z) ->
  response (shopify_summary raw) w
  = Ok (VDict (summary_dict true demo_product_items demo_order_items
                 demo_customer_items)).
Proof.
  intros Hl Hnet. rewrite summary_run, Hl.
  unfold products_fetch, orders_fetch, customers_fetch, nth_fetch.
  destruct (Hnet 0 (fetch_request (normalize_domain raw) (token_of integ)
                      (lit "products.json") products_params)) as [r0 [-> H0]]; [lia|].
  destruct (Hnet 1 (fetch_request (normalize_domain raw) (token_of integ)
                      (lit "orders.json") orders_params)) as [r1 [-> H1]]; [lia|].
  destruct (Hnet 2 (fetch_request (normalize_domain raw) (token_of integ)
                      (lit "customers.json") customers_params)) as [r2 [-> H2]]; [lia|].
  rewrite !fetch_result_http_error by assumption.
  unfold summary_value. cbn [fst snd]. rewrite !truthy_http_error. reflexivity.
Qed.

Lemma summary_demo_on_http_errors_unauthorized :
  response (shopify_summary (lit "acme"))
    (mkWorld (Some acme_store) (net world_unauthorized) 0 no_faults (lit "tmp")
       None quiet)
  = Ok (VDict (summary_dict true demo_product_items demo_order_items
                 demo_customer_items)).
Proof.
  apply (@summary_demo_on_http_errors
           (mkWorld (Some acme_store) (net world_unauthorized) 0 no_faults (lit "tmp")
       None quiet)
           (lit "acme") acme_record eq_refl).
  intros k req _. eexists. split; [reflexivity | discriminate].
Defined.

(** When the verification call is answered with a status other than 200,
    connect answers [verified=false] with a null store name and raises
    nothing -- without a database, or with one whose save at lines 84-90
    goes through. *)
Theorem connect_on_http_error (w : World) (payload : ConnectPayload.t) (r : Response) :
  (forall st, db w = Some st ->
     save_error w st (normalize_domain (ConnectPayload.domain payload)) = None) ->
  net w (clock w)
    (fetch_request (normalize_domain (ConnectPayload.domain payload))
       (VStr (ConnectPayload.access_token payload)) (lit "shop.json") None)
  = Responded r ->
  status_code r <> 200%Z ->
  exists id,
    response (connect_shopify payload) w
    = Ok (connect_response id (normalize_domain (ConnectPayload.domain payload))
            false VNone).
Proof.
  intros Hsave Hnet Hs.
  assert (Hv : verification w payload = (VNone, Some (http_error r))).
  { unfold verification, nth_fetch. rewrite Nat.add_0_r, Hnet.
    apply fetch_result_http_error. exact Hs. }
  destruct (db w) as [st|] eqn:Hdb.
  - pose proof (connect_run w payload Hdb) as H. cbv zeta in H.
    rewrite (Hsave st eq_refl) in H. destruct H as [st' [_ H]]. rewrite Hv in H.
    cbn [fst snd shop_name_of truthy] in H. rewrite truthy_http_error in H.
    destruct H as [H _]. eexists. exact H.
  - rewrite (connect_run_degraded w payload Hdb), Hv.
    cbn [fst snd shop_name_of truthy]. rewrite truthy_http_error.
    eexists. reflexivity.
Qed.

Lemma connect_on_http_error_unauthorized :
  exists id,
    response (connect_shopify acme_payload) world_unauthorized
    = Ok (connect_response id (lit "acme.myshopify.com") false VNone).
Proof.
  apply (@connect_on_http_error world_unauthorized acme_payload
           (mkResponse 401 (lit "Unauthorized") (Malformed (lit "no JSON"))));
    [|reflexivity | discriminate].
  intros st Hdb. injection Hdb as <-. reflexivity.
Defined.

(** ** The save: update in place, or insert *)

Lemma filter_ids_by_domains (x : str) (c c' : collection) :
  map domain_of c = map domain_of c' -> map doc_id c = map doc_id c' ->
  map doc_id (List.filter (matches (by_domain x)) c)
  = map doc_id (List.filter (matches (by_domain x)) c').
Proof.
  revert c'. induction c as [|d c IH]; intros [|d' c'] Hd Hi; try discriminate;
    [reflexivity|].
  simpl in Hd, Hi. injection Hd as Hd Hc. injection Hi as Hi Hc'.
  cbn [List.filter]. rewrite (matches_by_domain_of x d d' Hd).
  destruct (matches (by_domain x) d'); cbn [map]; rewrite (IH c' Hc Hc');
    [rewrite Hi|]; reflexivity.
Qed.

Lemma update_first_app_miss (q : query) (fields : dict) (c rest : collection) :
  List.filter (matches q) c = [] ->
  update_first q fields (c ++ rest) = c ++ update_first q fields rest.
Proof.
  induction c as [|d c IH]; [reflexivity|]. cbn [List.filter app update_first].
  destruct (matches q d); [discriminate|]. intros H. rewrite (IH H). reflexivity.
Qed.

Section SaveShape.
Variables (c : collection) (domain token : str).
Hypothesis ids_unique : NoDup (map doc_id c).

Let c1 := fst (upsert_integration c domain token).

(** With a record for the domain, the save and the name update rewrite
    documents where they stand. *)
Lemma saved_in_place (c' : collection) (e0 : document) (rest : list document) :
  List.filter (matches (by_domain domain)) c = e0 :: rest ->
  c' = c1 \/ (exists name, c' = name_update c1 domain name) ->
  map doc_id c' = map doc_id c /\ map domain_of c' = map domain_of c.
Proof.
  intros E Hc.
  assert (H1 : map doc_id c1 = map doc_id c /\ map domain_of c1 = map domain_of c).
  { unfold c1, upsert_integration. rewrite E. cbn [fst].
    split; [apply update_first_ids|].
    assert (He : In e0 c /\ matches (by_domain domain) e0 = true).
    { apply filter_In. rewrite E. left. reflexivity. }
    destruct He as [Hin Hm].
    apply update_first_domains. intros d Hd Hq.
    assert (d = e0).
    { apply (NoDup_map_eq doc_id c); try assumption.
      apply N.eqb_eq. exact Hq. }
    subst d. unfold domain_of at 1, updated. cbn [doc_fields].
    rewrite dump_domain. symmetry. apply matches_domain_of. exact Hm. }
  destruct H1 as [Hi Hd]. destruct Hc as [-> | [name ->]].
  - split; assumption.
  - rewrite name_update_ids, name_update_domains. split; assumption.
Qed.

(** Without one, they append a single document. *)
Lemma saved_appended (c' : collection) :
  List.filter (matches (by_domain domain)) c = [] ->
  c' = c1 \/ (exists name, c' = name_update c1 domain name) ->
  exists d, c' = c ++ [d].
Proof.
  intros E Hc.
  assert (H1 : c1 = c ++ [mkDocument (fresh_oid c)
                            (ShopifyIntegration.model_dump
                               (ShopifyIntegration.mk domain token None None))]).
  { unfold c1, upsert_integration. rewrite E. reflexivity. }
  destruct Hc as [-> | [name ->]].
  - eexists. exact H1.
  - rewrite H1. unfold name_update. rewrite (@update_first_app_miss _ _ _ _ E).
    cbn [update_first]. destruct (matches _ _); eexists; reflexivity.
Qed.
End SaveShape.

(** What one connect whose save goes through does to the collection. *)
Lemma connect_upsert (w : World) (st : Store) (payload : ConnectPayload.t) :
  let domain := normalize_domain (ConnectPayload.domain payload) in
  db w = Some st -> store_ok st -> save_error w st domain = None ->
  exists st' d,
    db (after (connect_shopify payload) w) = Some st' /\ store_ok st' /\
    records_for st' domain = [d] /\
    dict_get (doc_fields d) (lit "access_token")
    = Some (VStr (ConnectPayload.access_token payload)) /\
    (forall other, other <> domain -> records_for st' other = records_for st other) /\
    match records_for st domain with
    | e :: _ =>
        doc_id d = doc_id e /\
        map doc_id (st' integrations) = map doc_id (st integrations)
    | [] => st' integrations = st integrations ++ [d]
    end.
Proof.
  intros domain Hdb Hok Hs.
  destruct (connect_once w payload Hdb Hok Hs) as [st' [d [Hdb' [Hok' [Hr Ht]]]]].
  destruct (connect_saved w payload Hdb Hs) as [st'' [Hdb'' Hc]].
  rewrite Hdb' in Hdb''. injection Hdb'' as <-. fold domain in Hr, Hc.
  destruct Hok as [Hids _].
  exists st', d. split; [exact Hdb'|]. split; [exact Hok'|].
  split; [exact Hr|]. split; [exact Ht|]. split.
  - intros other Hne. unfold records_for. destruct Hc as [-> | [name ->]].
    + apply upsert_other_domains; assumption.
    + rewrite name_update_other_domains by exact Hne.
      apply upsert_other_domains; assumption.
  - unfold records_for in *.
    destruct (List.filter (matches (by_domain domain)) (st integrations))
      as [|e rest] eqn:E.
    + destruct (@saved_appended (st integrations) domain
                  (ConnectPayload.access_token payload) _ E Hc) as [y Hy].
      rewrite Hy in Hr |- *. rewrite filter_app, E in Hr. cbn [app List.filter] in Hr.
      destruct (matches (by_domain domain) y); [|discriminate Hr].
      injection Hr as ->. reflexivity.
    + destruct (@saved_in_place (st integrations) domain
                  (ConnectPayload.access_token payload) Hids _ e rest E Hc)
        as [Hi Hd].
      split; [|exact Hi].
      pose proof (filter_ids_by_domains domain _ _ Hd Hi) as H.
      rewrite Hr, E in H. cbn [map] in H. injection H as H _. exact H.
Qed.

(** The truth test and the driver calls of the save stay as they were. *)
Lemma connect_keeps_ready (w : World) (st : Store) (payload : ConnectPayload.t) :
  db w = Some st -> connect_ready w ->
  connect_ready (after (connect_shopify payload) w).
Proof.
  intros Hdb Hr.
  destruct (connect_frame w payload Hdb) as [st' [_ [[_ [_ [_ [_ [Htf Hdf]]]]] _]]].
  unfold connect_ready. rewrite Htf, Hdf. exact Hr.
Qed.

(** With a database whose handle passes its truth test and whose driver
    calls of the save do not fail, connect updates the record of the domain
    in place when there is one and appends one record otherwise: after a
    connect exactly one record is stored for the normalized domain, with the
    supplied token; if a record was there, it keeps its [_id] and the
    collection keeps its documents' identifiers in their order, otherwise
    the collection is the old one followed by the new record; the records of
    every other domain are untouched, and identifiers stay unique.  A second
    connect for the same domain thus rewrites the record of the first: one
    record, the same [_id], the latest token. *)
Theorem connect_one_record_per_domain (w : World) (st : Store)
    (p1 p2 : ConnectPayload.t) :
  let domain := normalize_domain (ConnectPayload.domain p1) in
  let w1 := after (connect_shopify p1) w in
  let w2 := after (connect_shopify p2) w1 in
  db w = Some st -> store_ok st -> connect_ready w ->
  ConnectPayload.domain p2 = ConnectPayload.domain p1 ->
  exists st1 d1 st2 d2,
    (db w1 = Some st1 /\ store_ok st1 /\ records_for st1 domain = [d1] /\
     dict_get (doc_fields d1) (lit "access_token")
     = Some (VStr (ConnectPayload.access_token p1)) /\
     (forall other, other <> domain ->
                    records_for st1 other = records_for st other) /\
     match records_for st domain with
     | e :: _ =>
         doc_id d1 = doc_id e /\
         map doc_id (st1 integrations) = map doc_id (st integrations)
     | [] => st1 integrations = st integrations ++ [d1]
     end) /\
    (db w2 = Some st2 /\ store_ok st2 /\ records_for st2 domain = [d2] /\
     dict_get (doc_fields d2) (lit "access_token")
     = Some (VStr (ConnectPayload.access_token p2)) /\
     (forall other, other <> domain ->
                    records_for st2 other = records_for st1 other) /\
     doc_id d2 = doc_id d1 /\
     map doc_id (st2 integrations) = map doc_id (st1 integrations)).
Proof.
  intros domain w1 w2 Hdb Hok Hready Hsame.
  destruct (connect_upsert w p1 Hdb Hok (@ready_save w st _ Hready))
    as [st1 [d1 [Hdb1 [Hok1 [Hr1 [Ht1 [Ho1 Hs1]]]]]]].
  fold domain w1 in Hdb1, Hr1, Ho1, Hs1.
  pose proof (@connect_keeps_ready w st p1 Hdb Hready) as Hready1. fold w1 in Hready1.
  destruct (connect_upsert w1 p2 Hdb1 Hok1 (@ready_save w1 st1 _ Hready1))
    as [st2 [d2 [Hdb2 [Hok2 [Hr2 [Ht2 [Ho2 Hs2]]]]]]].
  rewrite Hsame in Hr2, Ho2, Hs2. fold domain w2 in Hdb2, Hr2, Ho2, Hs2.
  rewrite Hr1 in Hs2. destruct Hs2 as [Hid Hids].
  exists st1, d1, st2, d2.
  split; repeat (split; [assumption|]); assumption.
Qed.

(** Two connects for [acme] against an empty database. *)
Lemma connect_twice_latest_token :
  exists st1 d1 st2 d2,
    (db (after (connect_shopify acme_payload) world_verified) = Some st1 /\
     store_ok st1 /\
     records_for st1 (lit "acme.myshopify.com") = [d1] /\
     dict_get (doc_fields d1) (lit "access_token") = Some (VStr (lit "shpat_2")) /\
     (forall other, other <> lit "acme.myshopify.com" ->
                    records_for st1 other = records_for empty_store other) /\
     st1 integrations = empty_store integrations ++ [d1]) /\
    (db (after (connect_shopify (ConnectPayload.mk (lit "acme") (lit "shpat_3")))
           (after (connect_shopify acme_payload) world_verified)) = Some st2 /\
     store_ok st2 /\
     records_for st2 (lit "acme.myshopify.com") = [d2] /\
     dict_get (doc_fields d2) (lit "access_token") = Some (VStr (lit "shpat_3")) /\
     (forall other, other <> lit "acme.myshopify.com" ->
                    records_for st2 other = records_for st1 other) /\
     doc_id d2 = doc_id d1 /\
     map doc_id (st2 integrations) = map doc_id (st1 integrations)).
Proof.
  refine (@connect_one_record_per_domain world_verified empty_store
            acme_payload (ConnectPayload.mk (lit "acme") (lit "shpat_3"))
            eq_refl _ _ eq_refl).
  - split; [constructor | intros x; simpl; lia].
  - repeat split.
Defined.

(** ** The scenarios of the specification *)

Example summary_unknown_domain :
  response (shopify_summary (lit "nope.myshopify.com")) world_products_only
  = Raise (HTTPException 404
             (lit "Integration not found. Connect your store first.")).
Proof. reflexivity. Qed.

Example summary_all_fail :
  response (shopify_summary (lit "acme"))
    (mkWorld (Some acme_store) (fun _ _ => TransportError (lit "timed out")) 0
       no_faults (lit "tmp") None quiet)
  = Ok (VDict (summary_dict true demo_product_items demo_order_items
                 demo_customer_items)).
Proof. reflexivity. Qed.

Example summary_products_only :
  response (shopify_summary (lit "acme")) world_products_only
  = Ok (VDict (summary_dict false [VInt 11; VInt 12; VInt 13] [] [])).
Proof. reflexivity. Qed.

Example summary_cache_failure :
  response (shopify_summary (lit "acme"))
    (set_snapshot_fault world_products_only (fun _ => Some (lit "server gone")))
  = response (shopify_summary (lit "acme")) world_products_only.
Proof. reflexivity. Qed.
